(** * hw5/decision_tree_starter.py: decision tree and bagged ensemble

    A shallow embedding of [DecisionTree] ([entropy], [information_gain],
    [split_test], [split], [fit]) and of [BaggedTrees.predict].

    Conventions of the embedding.
    - Python exceptions are values of [exn]; a call yields [result A].
    - A free name of a function body is looked up in the module namespace
      ([globals]); [module_globals] is the namespace the source file builds
      when it is imported.
    - Class labels are integers ([Z]); feature values and thresholds are
      rationals ([Q]): every finite float64 is one and comparisons are exact.
    - Impurities and gains are [float64]: real numbers extended with the two
      infinities and NaN.  Finite arithmetic is exact (no rounding, no
      overflow, no signed zero). *)

From Stdlib Require Import String ZArith QArith Qminmax List Bool Lia.
From Stdlib Require Import Reals Permutation Sorted DecimalString Psatz.
Import ListNotations.

Set Warnings "-register-all".

(** ** Exceptions and results *)

Inductive exn : Type :=
| NameError (name : string)
| AttributeError (attr : string)
| TypeError
| ZeroDivisionError
| IndexError
| ValueError
| RecursionError.

Inductive result (A : Type) : Type :=
| Ok (a : A)
| Raise (e : exn).

Arguments Ok {A} a.
Arguments Raise {A} e.

Definition bind {A B : Type} (c : result A) (k : A -> result B) : result B :=
  match c with
  | Ok a => k a
  | Raise e => Raise e
  end.

Notation "x <- c ;; k" := (bind c (fun x => k))
  (at level 61, c at next level, right associativity).
Notation "' pat <- c ;; k" := (bind c (fun x => match x with pat => k end))
  (at level 61, pat pattern, c at next level, right associativity).

Definition raises {A : Type} (c : result A) : Prop := exists e, c = Raise e.

(** [for x in xs: ... ] accumulating into a value, stopping at the first
    exception. *)
Fixpoint for_each {A S : Type} (body : S -> A -> result S) (xs : list A) (s : S)
  : result S :=
  match xs with
  | [] => Ok s
  | x :: rest => s' <- body s x ;; for_each body rest s'
  end.

(** A list comprehension whose element expression may raise. *)
Fixpoint comprehension {A B : Type} (f : A -> result B) (xs : list A)
  : result (list B) :=
  match xs with
  | [] => Ok []
  | x :: rest => v <- f x ;; vs <- comprehension f rest ;; Ok (v :: vs)
  end.

(** ** float64 values *)

Inductive float64 : Type :=
| Fin (r : R)
| Inf (negative : bool)
| NaN.

Definition f64_of_Z (z : Z) : float64 := Fin (IZR z).

Definition f64_neg (x : float64) : float64 :=
  match x with
  | Fin r => Fin (- r)
  | Inf s => Inf (negb s)
  | NaN => NaN
  end.

Definition f64_add (x y : float64) : float64 :=
  match x, y with
  | Fin a, Fin b => Fin (a + b)
  | Fin _, Inf s => Inf s
  | Inf s, Fin _ => Inf s
  | Inf s, Inf s' => if Bool.eqb s s' then Inf s else NaN
  | _, _ => NaN
  end.

Definition f64_sub (x y : float64) : float64 := f64_add x (f64_neg y).

Definition R_negative (r : R) : bool :=
  if Rlt_dec r 0 then true else false.

Definition R_zero (r : R) : bool :=
  if Req_dec_T r 0 then true else false.

Definition f64_mul (x y : float64) : float64 :=
  match x, y with
  | Fin a, Fin b => Fin (a * b)
  | Fin a, Inf s | Inf s, Fin a =>
      if R_zero a then NaN else Inf (xorb s (R_negative a))
  | Inf s, Inf s' => Inf (xorb s s')
  | _, _ => NaN
  end.

Definition f64_div (x y : float64) : float64 :=
  match x, y with
  | Fin a, Fin b =>
      if R_zero b then (if R_zero a then NaN else Inf (R_negative a))
      else Fin (a / b)
  | Fin _, Inf _ => Fin 0
  | Inf s, Fin b => Inf (xorb s (R_negative b))
  | _, _ => NaN
  end.

(** [np.log2] *)
Definition np_log2 (x : float64) : float64 :=
  match x with
  | Fin r =>
      if R_zero r then Inf true
      else if R_negative r then NaN
      else Fin (ln r / ln 2)
  | Inf false => Inf false
  | _ => NaN
  end.

Definition f64_is_finite (x : float64) : bool :=
  match x with Fin _ => true | _ => false end.

Definition f64_is_nan (x : float64) : bool :=
  match x with NaN => true | _ => false end.

(** The largest finite float64, [(2 - 2^-52) * 2^1023]. *)
Definition f64_max : R := (2 - / 2 ^ 52) * 2 ^ 1023.

(** ** Python numbers

    [int], the builtin [float] and [np.float64] differ in what a division
    by zero does, so the three are kept apart. *)

Inductive pynum : Type :=
| PyInt (z : Z)
| PyFloat (x : float64)
| NpFloat (x : float64).

Definition to_f64 (v : pynum) : float64 :=
  match v with
  | PyInt z => f64_of_Z z
  | PyFloat x => x
  | NpFloat x => x
  end.

Definition is_np (v : pynum) : bool :=
  match v with NpFloat _ => true | _ => false end.

(** Result type of a binary operation on floats: numpy's scalar wins. *)
Definition float_like (a b : pynum) (x : float64) : pynum :=
  if is_np a || is_np b then NpFloat x else PyFloat x.

Definition py_mul (a b : pynum) : pynum :=
  match a, b with
  | PyInt x, PyInt y => PyInt (x * y)
  | _, _ => float_like a b (f64_mul (to_f64 a) (to_f64 b))
  end.

Definition py_add (a b : pynum) : pynum :=
  match a, b with
  | PyInt x, PyInt y => PyInt (x + y)
  | _, _ => float_like a b (f64_add (to_f64 a) (to_f64 b))
  end.

Definition py_sub (a b : pynum) : pynum :=
  match a, b with
  | PyInt x, PyInt y => PyInt (x - y)
  | _, _ => float_like a b (f64_sub (to_f64 a) (to_f64 b))
  end.

Definition pynum_is_zero (v : pynum) : bool :=
  match v with
  | PyInt z => Z.eqb z 0
  | PyFloat (Fin r) | NpFloat (Fin r) => R_zero r
  | _ => false
  end.

(** True division [a / b].  With builtin operands a zero divisor raises;
    as soon as one operand is an [np.float64] the IEEE result is returned
    (numpy only warns). *)
Definition py_truediv (a b : pynum) : result pynum :=
  if is_np a || is_np b then Ok (NpFloat (f64_div (to_f64 a) (to_f64 b)))
  else if pynum_is_zero b then Raise ZeroDivisionError
  else Ok (PyFloat (f64_div (to_f64 a) (to_f64 b))).

(** ** The module namespace *)

Inductive pyval : Type :=
| NpArray (a : list Z)      (* a one-dimensional integer array *)
| ScipyStats                (* the module scipy.stats *)
| ScipyMode                 (* the function scipy.stats.mode *)
| PyObject.                 (* any other object *)

Definition globals : Type := list (string * pyval).

Fixpoint lookup (g : globals) (name : string) : option pyval :=
  match g with
  | [] => None
  | (n, v) :: rest => if String.eqb n name then Some v else lookup rest name
  end.

Definition load_global (g : globals) (name : string) : result pyval :=
  match lookup g name with
  | Some v => Ok v
  | None => Raise (NameError name)
  end.

(** Every name the file binds at top level: its imports (lines 5-16),
    [eps] (line 20), the four classes and the two functions. *)
Definition module_globals : globals :=
  map (fun n => (n, PyObject))
    [ "Counter"; "np"; "genfromtxt"; "scipy"; "DecisionTreeClassifier";
      "export_graphviz"; "BaseEstimator"; "ClassifierMixin";
      "cross_val_score"; "graph_from_dot_data"; "io"; "random"; "eps";
      "DecisionTree"; "BaggedTrees"; "RandomForest"; "BoostedRandomForest";
      "preprocess"; "evaluate" ]%string.

(** The names added when the file runs as a script (lines 219-285). *)
Definition script_globals : globals :=
  map (fun n => (n, PyObject))
    [ "dataset"; "params"; "N"; "path_train"; "data"; "path_test";
      "test_data"; "y"; "class_names"; "labeled_idx"; "X";
      "onehot_features"; "Z"; "_"; "features"; "clf"; "out"; "graph" ]%string
  ++ module_globals.

(** [len(v)] *)
Definition py_len (v : pyval) : result nat :=
  match v with
  | NpArray a => Ok (length a)
  | _ => Raise TypeError
  end.

Definition as_array (v : pyval) : result (list Z) :=
  match v with
  | NpArray a => Ok a
  | _ => Raise TypeError
  end.

(** ** numpy on one-dimensional arrays *)

Fixpoint insert_unique (x : Z) (l : list Z) : list Z :=
  match l with
  | [] => [x]
  | h :: rest =>
      if (x <? h)%Z then x :: l
      else if (x =? h)%Z then l
      else h :: insert_unique x rest
  end.

(** [np.unique]: the sorted distinct values. *)
Definition np_unique (a : list Z) : list Z :=
  fold_right insert_unique [] a.

Fixpoint nonzero_from (i : nat) (mask : list bool) : list nat :=
  match mask with
  | [] => []
  | b :: rest =>
      if b then i :: nonzero_from (S i) rest else nonzero_from (S i) rest
  end.

(** [np.where(mask)] with one argument: a tuple holding one index array
    per dimension of [mask]; the arrays here have one dimension. *)
Definition np_where (mask : list bool) : list (list nat) :=
  [nonzero_from 0 mask].

Fixpoint select {A : Type} (a : list A) (mask : list bool) : list A :=
  match a, mask with
  | x :: a', b :: mask' => if b then x :: select a' mask' else select a' mask'
  | _, _ => []
  end.

(** [a[mask]] with a boolean array: the lengths must agree. *)
Definition mask_index {A : Type} (a : list A) (mask : list bool)
  : result (list A) :=
  if Nat.eqb (length mask) (length a) then Ok (select a mask)
  else Raise IndexError.

(** [a[idx]] with an integer array. *)
Definition take {A : Type} (a : list A) (idx : list nat) : result (list A) :=
  comprehension
    (fun i => match nth_error a i with
              | Some x => Ok x
              | None => Raise IndexError
              end) idx.

Definition Qltb (x y : Q) : bool := negb (Qle_bool y x).

(** ** DecisionTree.entropy (lines 32-42) *)

Definition entropy (g : globals) (y : list Z) : result pynum :=
  let e := PyInt 0 in
  t <- load_global g "t"%string ;;
  n <- py_len t ;;
  if Nat.eqb n 0 then Ok e
  else
    a <- as_array t ;;
    let temp := np_unique a in
    for_each
      (fun e i =>
         let temp2 := length (np_where (map (Z.eqb i) a)) in
         p <- py_truediv (PyInt (Z.of_nat temp2)) (PyInt (Z.of_nat n)) ;;
         Ok (py_sub e (py_mul p (NpFloat (np_log2 (to_f64 p))))))
      temp e.

(** ** DecisionTree.information_gain (lines 44-50) *)

(** Line 47: [left, right = y[X > thresh], y[X <= thresh]]. *)
Definition gain_partition (X : list Q) (y : list Z) (thresh : Q)
  : result (list Z * list Z) :=
  left_ <- mask_index y (map (fun x => Qltb thresh x) X) ;;
  right_ <- mask_index y (map (fun x => Qle_bool x thresh) X) ;;
  Ok (left_, right_).

Definition information_gain (g : globals) (X : list Q) (y : list Z) (thresh : Q)
  : result pynum :=
  start <- entropy g y ;;
  '(left_, right_) <- gain_partition X y thresh ;;
  let len_left := PyInt (Z.of_nat (length left_)) in
  let len_right := PyInt (Z.of_nat (length right_)) in
  left_entropy <- entropy g left_ ;;
  right_entropy <- entropy g right_ ;;
  q <- py_truediv
         (py_add (py_mul len_left left_entropy)
                 (py_mul len_right right_entropy))
         (PyInt (Z.of_nat (length y))) ;;
  Ok (py_sub start q).

(** ** Feature matrices *)

(** An [N x D] array: [D] is kept apart from the rows, since an array with
    no row still has a number of columns. *)
Record matrix : Type := Matrix { ncols : nat; rows : list (list Q) }.

Definition nrows (X : matrix) : nat := length (rows X).

(** [X.size] *)
Definition size (X : matrix) : nat := nrows X * ncols X.

Definition entry (X : matrix) (r c : nat) : Q := nth c (nth r (rows X) []) 0.

(** [X[:, i]] *)
Definition column (X : matrix) (i : nat) : result (list Q) :=
  if Nat.ltb i (ncols X) then Ok (map (fun row => nth i row 0) (rows X))
  else Raise IndexError.

(** [X[idx, :]] *)
Definition take_rows (X : matrix) (idx : list nat) : result matrix :=
  rs <- take (rows X) idx ;; Ok (Matrix (ncols X) rs).

(** [a[i]] on a tuple or a list. *)
Definition item {A : Type} (a : list A) (i : nat) : result A :=
  match nth_error a i with
  | Some x => Ok x
  | None => Raise IndexError
  end.

(** ** DecisionTree.split_test and DecisionTree.split (lines 65-74) *)

Definition split_test (X : matrix) (idx : nat) (thresh : Q)
  : result (matrix * list nat * matrix * list nat) :=
  c0 <- column X idx ;;
  idx0 <- item (np_where (map (fun x => Qltb x thresh) c0)) 0 ;;
  c1 <- column X idx ;;
  idx1 <- item (np_where (map (fun x => Qle_bool thresh x) c1)) 0 ;;
  X0 <- take_rows X idx0 ;;
  X1 <- take_rows X idx1 ;;
  Ok (X0, idx0, X1, idx1).

Definition split (X : matrix) (y : list Z) (idx : nat) (thresh : Q)
  : result (matrix * list Z * matrix * list Z) :=
  '(X0, idx0, X1, idx1) <- split_test X idx thresh ;;
  y0 <- take y idx0 ;;
  y1 <- take y idx1 ;;
  Ok (X0, y0, X1, y1).

(** ** numpy reductions and grids *)

Definition np_min (a : list Q) : result Q :=
  match a with
  | [] => Raise ValueError
  | x :: rest => Ok (fold_left Qmin rest x)
  end.

Definition np_max (a : list Q) : result Q :=
  match a with
  | [] => Raise ValueError
  | x :: rest => Ok (fold_left Qmax rest x)
  end.

(** [np.linspace(start, stop, num)]: [arange(num) * step + start] with
    [step = (stop - start) / (num - 1)], the last sample set to [stop]. *)
Definition np_linspace (start stop : Q) (num : nat) : list Q :=
  let div := (num - 1)%nat in
  let step := (stop - start) / inject_Z (Z.of_nat div) in
  let y := map (fun k => inject_Z (Z.of_nat k) * step + start) (seq 0 num) in
  if Nat.ltb 1 num then removelast y ++ [stop] else y.

(** [np.nan_to_num] with its default replacements. *)
Definition nan_to_num1 (x : float64) : float64 :=
  match x with
  | NaN => Fin 0
  | Inf false => Fin f64_max
  | Inf true => Fin (- f64_max)
  | Fin r => Fin r
  end.

Definition np_nan_to_num (a : list (list float64)) : list (list float64) :=
  map (map nan_to_num1) a.

(** [x > y] on float64: false as soon as one side is NaN. *)
Definition f64_gtb (x y : float64) : bool :=
  match x, y with
  | Fin a, Fin b => if Rlt_dec b a then true else false
  | Fin _, Inf s => s
  | Inf s, Fin _ => negb s
  | Inf s, Inf s' => negb s && s'
  | _, _ => false
  end.

(** [np.argmax] scans for the first maximum; a NaN counts as maximal. *)
Fixpoint argmax_from (best_i : nat) (best : float64) (i : nat)
  (a : list float64) : nat :=
  match a with
  | [] => best_i
  | x :: rest =>
      if negb (f64_is_nan best) && (f64_is_nan x || f64_gtb x best)
      then argmax_from i x (S i) rest
      else argmax_from best_i best (S i) rest
  end.

Definition np_argmax (a : list float64) : result nat :=
  match a with
  | [] => Raise ValueError
  | x :: rest => Ok (argmax_from 0 x 1 rest)
  end.

(** [np.unravel_index] for a two-dimensional shape. *)
Definition np_unravel_index (flat : nat) (shape : nat * nat)
  : result (nat * nat) :=
  let (d0, d1) := shape in
  if Nat.ltb flat (d0 * d1) then Ok (Nat.div flat d1, Nat.modulo flat d1)
  else Raise ValueError.

(** ** scipy.stats.mode *)

Definition count (x : Z) (a : list Z) : nat := count_occ Z.eq_dec a x.

(** The most frequent value, the smallest one on a tie. *)
Definition scipy_mode (a : list Z) : option Z :=
  fold_left
    (fun best v =>
       match best with
       | None => Some v
       | Some b => if Nat.ltb (count b a) (count v a) then Some v else Some b
       end)
    (np_unique a) None.

(** [obj.mode] *)
Definition getattr_mode (obj : pyval) : result pyval :=
  match obj with
  | ScipyStats => Ok ScipyMode
  | _ => Raise (AttributeError "mode")
  end.

(** [f(a)] for [f] bound to [scipy.stats.mode], [.mode[0]] of its result;
    the mode of an empty array is NaN. *)
Definition call_mode (f : pyval) (a : list Z) : result pynum :=
  match f with
  | ScipyMode =>
      match scipy_mode a with
      | Some m => Ok (PyInt m)
      | None => Ok (NpFloat NaN)
      end
  | _ => Raise TypeError
  end.

(** Lines 105 and 108: [stats.mode(y, keepdims=True).mode[0]]. *)
Definition majority (g : globals) (y : list Z) : result pynum :=
  stats <- load_global g "stats"%string ;;
  f <- getattr_mode stats ;;
  call_mode f y.

(** ** The DecisionTree object *)

(** The attributes of one node; [None] is Python's [None], or for [labels]
    an attribute that [__init__] does not create. *)
Inductive DecisionTree : Type :=
  Node {
    max_depth : Z;
    features : option (list string);
    left_ : option DecisionTree;
    right_ : option DecisionTree;
    split_idx : option nat;
    thresh : option Q;
    data : option matrix;
    labels : option (list Z);
    pred : option pynum
  }.

(** [DecisionTree.__init__] (lines 25-30) *)
Definition DecisionTree_init (max_depth : Z) (feature_labels : option (list string))
  : DecisionTree :=
  Node max_depth feature_labels None None None None None None None.

Definition set_max_depth (self : DecisionTree) (d : Z) : DecisionTree :=
  Node d (features self) (left_ self) (right_ self) (split_idx self)
    (thresh self) (data self) (labels self) (pred self).

Definition set_left (self child : DecisionTree) : DecisionTree :=
  Node (max_depth self) (features self) (Some child) (right_ self)
    (split_idx self) (thresh self) (data self) (labels self) (pred self).

Definition set_right (self child : DecisionTree) : DecisionTree :=
  Node (max_depth self) (features self) (left_ self) (Some child)
    (split_idx self) (thresh self) (data self) (labels self) (pred self).

Definition set_split_idx (self : DecisionTree) (i : nat) : DecisionTree :=
  Node (max_depth self) (features self) (left_ self) (right_ self) (Some i)
    (thresh self) (data self) (labels self) (pred self).

Definition set_thresh (self : DecisionTree) (t : Q) : DecisionTree :=
  Node (max_depth self) (features self) (left_ self) (right_ self)
    (split_idx self) (Some t) (data self) (labels self) (pred self).

Definition set_data_labels (self : DecisionTree) (X : matrix) (y : list Z)
  : DecisionTree :=
  Node (max_depth self) (features self) (left_ self) (right_ self)
    (split_idx self) (thresh self) (Some X) (Some y) (pred self).

Definition set_pred (self : DecisionTree) (p : pynum) : DecisionTree :=
  Node (max_depth self) (features self) (left_ self) (right_ self)
    (split_idx self) (thresh self) (data self) (labels self) (Some p).

(** ** DecisionTree.fit (lines 76-109) *)

Definition eps : Q := 1 # 100000.

(** Lines 84-87: ten thresholds per feature dimension. *)
Definition fit_thresholds (X : matrix) : result (list (list Q)) :=
  comprehension
    (fun i =>
       c <- column X i ;;
       lo <- np_min c ;;
       c' <- column X i ;;
       hi <- np_max c' ;;
       Ok (np_linspace (lo + eps) (hi - eps) 10))
    (seq 0 (ncols X)).

(** Lines 88-90: the gain of every (dimension, threshold) candidate. *)
Definition fit_gains (g : globals) (X : matrix) (y : list Z)
  (thresh : list (list Q)) : result (list (list pynum)) :=
  for_each
    (fun gains i =>
       ts <- item thresh i ;;
       row <- comprehension
                (fun t => c <- column X i ;; information_gain g c y t) ts ;;
       Ok (gains ++ [row]))
    (seq 0 (ncols X)) [].

(** Line 91: [np.nan_to_num(np.array(gains))]. *)
Definition neutralize (gains : list (list pynum)) : list (list float64) :=
  np_nan_to_num (map (map to_f64) gains).

(** Lines 91-93: the position of the first largest neutralized gain. *)
Definition select_split (gains : list (list pynum)) : result (nat * nat) :=
  let gains := neutralize gains in
  flat <- np_argmax (concat gains) ;;
  np_unravel_index flat (length gains, 10%nat).

(** Lines 80-93 up to the assignments: the threshold grid and the grid
    position of the selected candidate. *)
Definition split_search (g : globals) (X : matrix) (y : list Z)
  : result (list (list Q) * nat * nat) :=
  th <- fit_thresholds X ;;
  gains <- fit_gains g X y th ;;
  '(i, j) <- select_split gains ;;
  Ok (th, i, j).

(** Lines 104-105 and 107-108. *)
Definition become_leaf (g : globals) (self : DecisionTree) (X : matrix)
  (y : list Z) : DecisionTree * result unit :=
  let self := set_data_labels self X y in
  match majority g y with
  | Ok p => (set_pred self p, Ok tt)
  | Raise e => (self, Raise e)
  end.

(** [fit] mutates [self]; the model returns the node as the call leaves it
    together with the outcome of the call.  A child is bound to [self.left]
    (or [self.right]) before it is fitted, so it stays attached when its
    own [fit] raises.  [fuel] bounds the recursion depth. *)
Fixpoint fit_fuel (fuel : nat) (g : globals) (self : DecisionTree)
  (X : matrix) (y : list Z) : DecisionTree * result unit :=
  match fuel with
  | O => (self, Raise RecursionError)
  | S fuel' =>
      if (0 <? max_depth self)%Z then
        match split_search g X y with
        | Raise e => (self, Raise e)
        | Ok (th, i, j) =>
            let self := set_split_idx self i in
            match (ts <- item th i ;; item ts j) with
            | Raise e => (self, Raise e)
            | Ok t =>
                let self := set_thresh self t in
                match split X y i t with
                | Raise e => (self, Raise e)
                | Ok (X0, y0, X1, y1) =>
                    if Nat.ltb 0 (size X0) && Nat.ltb 0 (size X1) then
                      let (l, rl) :=
                        fit_fuel fuel' g
                          (DecisionTree_init (max_depth self - 1) (features self))
                          X0 y0 in
                      let self := set_left self l in
                      match rl with
                      | Raise e => (self, Raise e)
                      | Ok _ =>
                          let (r, rr) :=
                            fit_fuel fuel' g
                              (DecisionTree_init (max_depth self - 1)
                                 (features self))
                              X1 y1 in
                          (set_right self r, rr)
                      end
                    else
                      become_leaf g (set_max_depth self 0) X y
                end
            end
        end
      else become_leaf g self X y
  end.

Definition fit (g : globals) (self : DecisionTree) (X : matrix) (y : list Z)
  : DecisionTree * result unit :=
  fit_fuel (S (Z.to_nat (max_depth self))) g self X y.

(** ** BaggedTrees.predict (lines 139-144) *)

(** A fitted member is the library's classifier; all that is used of it is
    the label its [predict] gives to a row. *)
Definition member : Type := list Q -> Z.

Record BaggedTrees : Type :=
  Bagged { bt_n : nat; decision_trees : list member }.

(** [BaggedTrees.__init__] builds [n] members. *)
Definition BaggedTrees_wf (b : BaggedTrees) : Prop :=
  length (decision_trees b) = bt_n b.

Fixpoint update_nth {A : Type} (i : nat) (v : A) (l : list A) : list A :=
  match l, i with
  | [], _ => []
  | _ :: rest, O => v :: rest
  | x :: rest, S i' => x :: update_nth i' v rest
  end.

(** [predictions[:, i] = col] on an array with [n] columns. *)
Definition set_column (n : nat) (predictions : list (list Z)) (i : nat)
  (col : list Z) : result (list (list Z)) :=
  if Nat.ltb i n then
    if Nat.eqb (length col) (length predictions)
    then Ok (map (fun rc => update_nth i (snd rc) (fst rc))
               (combine predictions col))
    else Raise ValueError
  else Raise IndexError.

(** [f(a, axis=1)[0].ravel()] for [f] bound to [scipy.stats.mode]. *)
Definition call_mode_rows (f : pyval) (a : list (list Z)) : result (list pynum) :=
  comprehension (call_mode f) a.

Definition predict (g : globals) (self : BaggedTrees) (X : matrix)
  : result (list pynum) :=
  let predictions := repeat (repeat 0%Z (bt_n self)) (nrows X) in
  predictions <-
    for_each
      (fun predictions it =>
         let '(i, tree) := it in
         set_column (bt_n self) predictions i (map tree (rows X)))
      (combine (seq 0 (length (decision_trees self))) (decision_trees self))
      predictions ;;
  mode <- load_global g "mode"%string ;;
  call_mode_rows mode predictions.

(** ** Inputs used in the examples *)

Definition four_rows : matrix := Matrix 2 [[1; 5]; [2; 7]; [3; 5]; [0; 9]].

Definition three_rows : matrix := Matrix 1 [[1]; [2]; [3]].

Definition two_rows : matrix := Matrix 1 [[1]; [2]].

(** A fitted member that gives every row the same label. *)
Definition always (l : Z) : member := fun _ => l.

(** A member that reads its label off the first feature: 1 from 2 on. *)
Definition stump : member :=
  fun row => if Qle_bool 2 (nth 0 row 0) then 1%Z else 0%Z.

(** One row of candidate gains whose first entry is infinite. *)
Definition infinite_gain_row : list pynum :=
  NpFloat (Inf false) :: repeat (NpFloat (Fin 0)) 9.


(** What the preconditions of [fit] exclude: a length mismatch, no row, or
    no column. *)
Definition malformed (X : matrix) (y : list Z) : Prop :=
  length y <> nrows X \/ nrows X = 0%nat \/ ncols X = 0%nat.

(** [m] is a most frequent value of [a], the smallest such. *)
Definition is_majority (m : Z) (a : list Z) : Prop :=
  In m a /\
  forall c, (count c a <= count m a)%nat /\
            (count c a = count m a -> (m <= c)%Z).

(** ** Auxiliary definitions of the proofs *)

(** Strictly increasing lists. *)
Fixpoint increasing (l : list Z) : Prop :=
  match l with
  | [] => True
  | x :: rest => Forall (Z.lt x) rest /\ increasing rest
  end.

(** One step of the scan of [scipy_mode]. *)
Definition mode_step (a : list Z) (best : option Z) (v : Z) : option Z :=
  match best with
  | None => Some v
  | Some b => if Nat.ltb (count b a) (count v a) then Some v else Some b
  end.


(** The votes a row gets from the first members, the remaining columns
    still holding the zeros of line 141. *)
Definition votes (done : list member) (pending : nat) (row : list Q) : list Z :=
  map (fun tree => tree row) done ++ repeat 0%Z pending.

(** A namespace in which the two names [fit] misses are bound: [t] to
    an empty array, so that [entropy] returns the 0 it starts from, and
    [stats] to [scipy.stats]. *)
Definition patched_globals : globals :=
  (("t", NpArray []) :: ("stats", ScipyStats) :: module_globals)%string.

(** The separable data set of the specification's test properties. *)
Definition separable : matrix := Matrix 1 [[0]; [0]; [10]; [10]].

(** * The rest of the file *)

(** ** Auxiliary definitions for the selection *)

(** The real number a finite float64 stands for. *)
Definition gain_value (x : float64) : R :=
  match x with
  | Fin r => r
  | _ => 0%R
  end.

(** The neutralized gain of threshold [c] of dimension [r]. *)
Definition neutral_at (gains : list (list pynum)) (r c : nat) : R :=
  gain_value (nth c (nth r (neutralize gains) []) (Fin 0)).

(** [k] is the position of the first largest entry of [l]. *)
Definition first_maximum (l : list float64) (k : nat) : Prop :=
  (k < length l)%nat /\
  (forall q, (q < length l)%nat ->
     (gain_value (nth q l (Fin 0)) <= gain_value (nth k l (Fin 0)))%R) /\
  (forall q, (q < k)%nat ->
     (gain_value (nth q l (Fin 0)) < gain_value (nth k l (Fin 0)))%R).

(** Two rows of ten candidate gains. *)
Definition two_gain_rows : list (list pynum) :=
  [repeat (PyInt 0) 10; infinite_gain_row].

(** ** DecisionTree.gini_impurity and gini_purification (lines 52-63) *)

(** [DecisionTree.name], about to be called with one array.  The class
    body (lines 25-117) binds nine names.  [entropy] is the only one that
    takes one argument; the other static methods and the methods that
    need [self] and more fail on the argument count, and [__init__] and
    [__repr__] take the array for [self] and fail on its [max_depth]. *)
Definition DecisionTree_call1 (g : globals) (name : string)
  : result (list Z -> result pynum) :=
  _ <- load_global g "DecisionTree"%string ;;
  if String.eqb name "entropy" then Ok (entropy g)
  else if existsb (String.eqb name)
            ["information_gain"; "gini_impurity"; "gini_purification";
             "split"; "split_test"; "fit"]%string
  then Ok (fun _ => Raise TypeError)
  else if existsb (String.eqb name) ["__init__"; "__repr__"]%string
  then Ok (fun _ => Raise (AttributeError "max_depth"))
  else Raise (AttributeError name).

Definition gini_impurity (g : globals) (X : list Q) (y : list Z) (thresh : Q)
  : result pynum :=
  gini <- DecisionTree_call1 g "gini"%string ;;
  start <- gini y ;;
  '(left_, right_) <- gain_partition X y thresh ;;
  let len_left := PyInt (Z.of_nat (length left_)) in
  let len_right := PyInt (Z.of_nat (length right_)) in
  gini_l <- DecisionTree_call1 g "gini"%string ;;
  left_gini <- gini_l left_ ;;
  gini_r <- DecisionTree_call1 g "gini"%string ;;
  right_gini <- gini_r right_ ;;
  q <- py_truediv
         (py_add (py_mul len_left left_gini) (py_mul len_right right_gini))
         (PyInt (Z.of_nat (length y))) ;;
  Ok (py_sub start q).

Definition gini_purification (g : globals) (X : list Q) (y : list Z)
  (thresh : Q) : result pynum :=
  _ <- load_global g "DecisionTree"%string ;;
  gini_impurity g X y thresh.

(** ** The ensembles (lines 120-170) *)

(** A Python dict with string keys, in insertion order. *)
Definition dict (V : Type) : Type := list (string * V).

Fixpoint dict_get {V : Type} (d : dict V) (k : string) : option V :=
  match d with
  | [] => None
  | (k', v) :: rest => if String.eqb k' k then Some v else dict_get rest k
  end.

(** [d[k] = v]: the entry is replaced where it stands, or added last. *)
Fixpoint dict_set {V : Type} (k : string) (v : V) (d : dict V) : dict V :=
  match d with
  | [] => [(k, v)]
  | (k', v') :: rest =>
      if String.eqb k' k then (k', v) :: rest
      else (k', v') :: dict_set k v rest
  end.

Definition dict_mem {V : Type} (d : dict V) (k : string) : bool :=
  match dict_get d k with Some _ => true | None => false end.

(** A member: the library's [DecisionTreeClassifier] with the keyword
    arguments it was built from, and the label it gives to a row once it
    has been fitted. *)
Record Classifier : Type :=
  Clf { random_state : Z; tree_params : dict Z; fitted : option member }.

(** The attributes of an ensemble object: [params], [n] and
    [decision_trees] from [BaggedTrees.__init__], [m] from
    [RandomForest.__init__] only. *)
Record Ensemble : Type :=
  Ens { ens_params : dict Z; ens_n : Z; ens_trees : list Classifier;
        ens_m : option Z }.

(** [range(n)] *)
Definition range (n : Z) : list Z := map Z.of_nat (seq 0 (Z.to_nat n)).

Section Library.

(** The keyword names the constructor of the library's classifier
    declares; they depend on the library version. *)
Variable accepts : string -> bool.

(** [DecisionTreeClassifier(random_state=i, **params)]: a keyword given
    twice and a keyword the constructor does not declare are both a
    [TypeError]. *)
Definition DecisionTreeClassifier (i : Z) (params : dict Z) : result Classifier :=
  if dict_mem params "random_state" then Raise TypeError
  else if forallb (fun kv => accepts (fst kv)) params
  then Ok (Clf i params None)
  else Raise TypeError.

(** [BaggedTrees.__init__] (lines 122-130), on an object whose attribute
    [m] is [m]. *)
Definition BaggedTrees_init (m : option Z) (params : option (dict Z)) (n : Z)
  : result Ensemble :=
  let params := match params with None => [] | Some p => p end in
  trees <- comprehension (fun i => DecisionTreeClassifier i params) (range n) ;;
  Ok (Ens params n trees m).

(** [RandomForest.__init__] (lines 149-154).  The dict the caller passed
    is the one that is written to: the first component is that dict after
    the call ([None] when the caller passed [None]). *)
Definition RandomForest_init (params : option (dict Z)) (n : Z) (m : Z)
  : option (dict Z) * result Ensemble :=
  let fresh := match params with None => [] | Some p => p end in
  let params' := dict_set "max_features" m fresh in
  (match params with None => None | Some _ => Some params' end,
   BaggedTrees_init (Some m) (Some params') n).

End Library.

Section Training.

(** The library's [tree.fit(X, y)]: the member as the call leaves it and
    the outcome of the call. *)
Variable sk_fit : Classifier -> matrix -> list Z -> Classifier * result unit.

(** The random source: [draws k] is what the [k]-th call of
    [np.random.choice(len(X), size=len(X), replace=True)] gives. *)
Variable draws : nat -> result (list nat).



End Training.

(** [tree.predict(X)]: the library raises its [NotFittedError], a
    [ValueError], on a member that has not been fitted. *)
Definition member_predict (tree : Classifier) (X : matrix) : result (list Z) :=
  match fitted tree with
  | Some f => Ok (map f (rows X))
  | None => Raise ValueError
  end.



(** ** BoostedRandomForest (lines 157-170) *)

Inductive attr_value : Type :=
| ADict (d : dict Z)
| AInt (z : Z)
| ATrees (l : list Classifier)
| AMethod.

(** [self.name] on an ensemble object: the attributes the constructors
    set and the methods the three classes of the file define. *)
Definition getattr_ensemble (self : Ensemble) (name : string)
  : result attr_value :=
  if String.eqb name "params" then Ok (ADict (ens_params self))
  else if String.eqb name "n" then Ok (AInt (ens_n self))
  else if String.eqb name "decision_trees" then Ok (ATrees (ens_trees self))
  else if String.eqb name "m" then
    match ens_m self with
    | Some m => Ok (AInt m)
    | None => Raise (AttributeError "m")
    end
  else if existsb (String.eqb name) ["__init__"; "fit"; "predict"]%string
  then Ok AMethod
  else Raise (AttributeError name).

(** [for tree in v]: the members of a list; a dict yields its keys,
    strings, which have no [fit] and no [predict]. *)
Definition iterate_trees (v : attr_value) (method : string)
  : result (list Classifier) :=
  match v with
  | ATrees l => Ok l
  | ADict [] => Ok []
  | ADict (_ :: _) => Raise (AttributeError method)
  | AInt _ | AMethod => Raise TypeError
  end.

Section Boosting.

Variable sk_fit : Classifier -> matrix -> list Z -> Classifier * result unit.

Fixpoint fit_all (todo : list Classifier) (X : matrix) (y : list Z)
  : list Classifier * result unit :=
  match todo with
  | [] => ([], Ok tt)
  | tree :: rest =>
      match sk_fit tree X y with
      | (tree', Raise e) => (tree' :: rest, Raise e)
      | (tree', Ok _) =>
          let (rest', r) := fit_all rest X y in (tree' :: rest', r)
      end
  end.

(** [BoostedRandomForest.fit] (lines 159-162) *)
Definition BoostedRandomForest_fit (self : Ensemble) (X : matrix) (y : list Z)
  : Ensemble * result unit :=
  match (v <- getattr_ensemble self "trees" ;; iterate_trees v "fit") with
  | Raise e => (self, Raise e)
  | Ok trees =>
      let (trees', r) := fit_all trees X y in
      (Ens (ens_params self) (ens_n self) trees' (ens_m self), r)
  end.

End Boosting.

(** Rounding to the nearest integer, halves to the even one. *)
Definition R_round (r : R) : Z :=
  let f := (up r - 1)%Z in
  let d := (r - IZR f)%R in
  if Rlt_dec d (1 / 2) then f
  else if Rlt_dec (1 / 2) d then (f + 1)%Z
  else if Z.even f then f else (f + 1)%Z.

(** [np.round] *)
Definition np_round (x : float64) : float64 :=
  match x with
  | Fin r => Fin (IZR (R_round r))
  | _ => x
  end.

(** [predictions += col] *)
Definition add_column (predictions col : list Z) : result (list Z) :=
  if Nat.eqb (length col) (length predictions)
  then Ok (map (fun pc => (fst pc + snd pc)%Z) (combine predictions col))
  else Raise ValueError.

(** [BoostedRandomForest.predict] (lines 164-170) *)
Definition BoostedRandomForest_predict (self : Ensemble) (X : matrix)
  : result (list float64) :=
  let predictions := repeat 0%Z (nrows X) in
  v <- getattr_ensemble self "trees" ;;
  trees <- iterate_trees v "predict" ;;
  predictions <-
    for_each
      (fun predictions tree =>
         col <- member_predict tree X ;; add_column predictions col)
      trees predictions ;;
  n <- getattr_ensemble self "n" ;;
  match n with
  | AInt n =>
      Ok (map (fun s => np_round (f64_div (f64_of_Z s) (f64_of_Z n)))
            predictions)
  | _ => Raise TypeError
  end.

(** A parameter dict as the script builds it (lines 222-226). *)
Definition script_params : dict Z :=
  [("max_depth", 5%Z); ("min_samples_leaf", 10%Z)]%string.

(** The keyword names of the classifier's constructor that the file uses. *)
Definition common_keywords (k : string) : bool :=
  existsb (String.eqb k)
    ["max_depth"; "min_samples_leaf"; "max_features"; "random_state"]%string.





(** ** The shape of a fitted tree *)



(** ** DecisionTree.__repr__ (lines 111-117) *)

Section Rendering.

(** [str] of a float64 and of a threshold is the library's shortest
    decimal form; it is left open. *)
Variable str_float : float64 -> string.
Variable str_thresh : Q -> string.

(** ["%s" % v] for the values a node holds. *)
Definition str_pred (p : option pynum) : string :=
  match p with
  | None => "None"
  | Some (PyInt z) => NilZero.string_of_int (Z.to_int z)
  | Some (PyFloat x) | Some (NpFloat x) => str_float x
  end.

Definition str_opt_thresh (t : option Q) : string :=
  match t with
  | None => "None"
  | Some q => str_thresh q
  end.

Definition str_size (n : nat) : string := NilZero.string_of_uint (Nat.to_uint n).

(** [None.__repr__()] is the string [None]: a missing child prints. *)
Fixpoint repr (self : DecisionTree) : result string :=
  match self with
  | Node max_depth features left_ right_ split_idx thresh data labels pred =>
      if (max_depth =? 0)%Z then
        match labels with
        | None => Raise (AttributeError "labels")
        | Some y => Ok (str_pred pred ++ " (" ++ str_size (length y) ++ ")")
        end
      else
        match features with
        | None => Raise TypeError
        | Some names =>
            match split_idx with
            | None => Raise TypeError
            | Some i =>
                name <- item names i ;;
                l <- match left_ with
                     | None => Ok "None"
                     | Some child => repr child
                     end ;;
                r <- match right_ with
                     | None => Ok "None"
                     | Some child => repr child
                     end ;;
                Ok ("[" ++ name ++ " < " ++ str_opt_thresh thresh ++ ": "
                    ++ l ++ " | " ++ r ++ "]")
            end
        end
  end%string.

End Rendering.





(** * Properties *)

(** ** Generic facts about the embedding *)

Lemma raises_Raise {A : Type} (e : exn) : raises (@Raise A e).
Proof. exists e. reflexivity. Qed.

Lemma raises_bind {A B : Type} (c : result A) (k : A -> result B) :
  raises c -> raises (bind c k).
Proof. intros [e ->]. exists e. reflexivity. Qed.

Lemma raises_not_Ok {A : Type} (c : result A) (a : A) :
  raises c -> c <> Ok a.
Proof. intros [e ->]. discriminate. Qed.

Lemma R_zero_true (r : R) : r = 0%R -> R_zero r = true.
Proof.
  intros H. unfold R_zero. destruct (Req_dec_T r 0); [reflexivity | contradiction].
Qed.

Lemma R_zero_false (r : R) : r <> 0%R -> R_zero r = false.
Proof.
  intros H. unfold R_zero. destruct (Req_dec_T r 0); [contradiction | reflexivity].
Qed.

Lemma f64_add_NaN_r (x : float64) : f64_add x NaN = NaN.
Proof. destruct x; reflexivity. Qed.


(** ** Name resolution in the module *)

Lemma load_global_unbound (g : globals) (name : string) :
  lookup g name = None -> load_global g name = Raise (NameError name).
Proof. intros H. unfold load_global. rewrite H. reflexivity. Qed.

Lemma module_unbound_t : lookup module_globals "t" = None.
Proof. reflexivity. Qed.

Lemma module_unbound_stats : lookup module_globals "stats" = None.
Proof. reflexivity. Qed.

Lemma module_unbound_mode : lookup module_globals "mode" = None.
Proof. reflexivity. Qed.

Lemma script_unbound :
  lookup script_globals "t" = None /\
  lookup script_globals "stats" = None /\
  lookup script_globals "mode" = None.
Proof. repeat split; reflexivity. Qed.

(** ** entropy *)

(** Line 35 reads the global [t], never the parameter [y]. *)
Lemma entropy_ignores_labels (g : globals) (y y' : list Z) :
  entropy g y = entropy g y'.
Proof. reflexivity. Qed.

Lemma entropy_unbound (g : globals) (y : list Z) :
  lookup g "t" = None -> entropy g y = Raise (NameError "t").
Proof.
  intros H. unfold entropy. rewrite (load_global_unbound g "t" H). reflexivity.
Qed.

(** Line 39: the length of the tuple [np.where] returns, not a count. *)
Lemma np_where_len (mask : list bool) : length (np_where mask) = 1%nat.
Proof. reflexivity. Qed.

Lemma entropy_step_np (n : nat) (e : pynum) (temp2 : nat) :
  raises (p <- py_truediv (PyInt (Z.of_nat temp2)) (PyInt (Z.of_nat n)) ;;
          Ok (py_sub e (py_mul p (NpFloat (np_log2 (to_f64 p)))))) \/
  exists x,
    (p <- py_truediv (PyInt (Z.of_nat temp2)) (PyInt (Z.of_nat n)) ;;
     Ok (py_sub e (py_mul p (NpFloat (np_log2 (to_f64 p)))))) = Ok (NpFloat x).
Proof.
  destruct (py_truediv (PyInt (Z.of_nat temp2)) (PyInt (Z.of_nat n))) as [p|err].
  - right. cbn [bind].
    destruct p as [z|x|x], e as [z'|x'|x']; cbn; eexists; reflexivity.
  - left. apply raises_Raise.
Qed.

Lemma for_each_np {A : Type} (body : pynum -> A -> result pynum) (xs : list A) :
  (forall e a, raises (body e a) \/ exists x, body e a = Ok (NpFloat x)) ->
  forall e,
    raises (for_each body xs e) \/ for_each body xs e = Ok e \/
    exists x, for_each body xs e = Ok (NpFloat x).
Proof.
  intros Hbody. induction xs as [|a xs IH]; intros e; cbn.
  - right. left. reflexivity.
  - destruct (Hbody e a) as [[err ->] | [x ->]]; cbn.
    + left. apply raises_Raise.
    + destruct (IH (NpFloat x)) as [H | [H | H]].
      * left. exact H.
      * right. right. exists x. exact H.
      * right. right. exact H.
Qed.

(** [entropy] raises, returns the [int] 0 it starts from, or returns an
    [np.float64]. *)
Lemma entropy_cases (g : globals) (y : list Z) :
  raises (entropy g y) \/ entropy g y = Ok (PyInt 0) \/
  exists x, entropy g y = Ok (NpFloat x).
Proof.
  unfold entropy.
  destruct (load_global g "t") as [t|err]; [|left; apply raises_Raise].
  cbn [bind]. destruct (py_len t) as [n|err]; [|left; apply raises_Raise].
  cbn [bind]. destruct (Nat.eqb n 0).
  - right. left. reflexivity.
  - destruct (as_array t) as [a|err]; [|left; apply raises_Raise].
    cbn [bind]. apply for_each_np. intros e i. apply entropy_step_np.
Qed.

(** ** information_gain *)

Lemma information_gain_unbound (g : globals) (X : list Q) (y : list Z) (th : Q) :
  lookup g "t" = None -> information_gain g X y th = Raise (NameError "t").
Proof.
  intros H. unfold information_gain. rewrite (entropy_unbound g y H). reflexivity.
Qed.

Lemma gain_partition_empty_labels (X : list Q) (th : Q) :
  raises (gain_partition X [] th) \/ gain_partition X [] th = Ok ([], []).
Proof.
  destruct X as [|x X].
  - right. reflexivity.
  - left. apply raises_Raise.
Qed.

Lemma zero_weighted_sum_div (x : float64) :
  let w := f64_mul (f64_of_Z 0) x in
  f64_div (f64_add w w) (f64_of_Z 0) = NaN.
Proof.
  unfold f64_of_Z. destruct x as [r| s |]; cbn.
  - rewrite (R_zero_true 0) by reflexivity.
    rewrite R_zero_true by lra. reflexivity.
  - rewrite (R_zero_true 0) by reflexivity. reflexivity.
  - reflexivity.
Qed.

(** C2 (the code at every input): in the module as written [entropy]
    computes no [-sum p_c log2 p_c] and returns no 0 for the empty array:
    whatever the labels, the lookup of [t] at line 35 raises [NameError]. *)
Theorem entropy_module_raises (y : list Z) :
  entropy module_globals y = Raise (NameError "t").
Proof. apply entropy_unbound. exact module_unbound_t. Qed.

Example entropy_two_classes :
  entropy module_globals [0; 0; 1; 1]%Z = Raise (NameError "t") /\
  entropy module_globals [] = Raise (NameError "t").
Proof. split; reflexivity. Qed.

(** C3 (the code at every input): [information_gain] starts with
    [entropy(y)], so in the module as written it raises [NameError] before
    any partition is taken or any gain is returned. *)
Theorem information_gain_module_raises (X : list Q) (y : list Z) (thresh : Q) :
  information_gain module_globals X y thresh = Raise (NameError "t").
Proof. apply information_gain_unbound. exact module_unbound_t. Qed.

Example information_gain_three_rows :
  information_gain module_globals [1; 2; 3] [0; 0; 1]%Z 2 =
  Raise (NameError "t").
Proof. reflexivity. Qed.

(** Whatever the namespace, once the three [entropy] calls return [e] the
    value is the formula of lines 46-50 with [len(y)] as divisor. *)
Lemma information_gain_formula (g : globals) (X : list Q) (y : list Z) (th : Q)
  (e : pynum) (hi lo : list Z) :
  entropy g y = Ok e ->
  gain_partition X y th = Ok (hi, lo) ->
  information_gain g X y th =
  (q <- py_truediv
          (py_add (py_mul (PyInt (Z.of_nat (length hi))) e)
                  (py_mul (PyInt (Z.of_nat (length lo))) e))
          (PyInt (Z.of_nat (length y))) ;;
   Ok (py_sub e q)).
Proof.
  intros He Hp. unfold information_gain.
  rewrite He, Hp. cbn [bind].
  rewrite (entropy_ignores_labels g hi y), (entropy_ignores_labels g lo y), He.
  reflexivity.
Qed.

(** C5 (counterexample): on the empty feature and label vectors the module's
    [information_gain] returns no value at all. *)
Lemma information_gain_empty_counterexample :
  ~ (exists v, information_gain module_globals [] [] 0 = Ok v /\
               pynum_is_zero v = true).
Proof. intros [v [H _]]. discriminate H. Qed.

(** C5 (amended): [information_gain] has no guard for an empty label
    vector and never yields the gain 0 there.  For every binding of the
    names it reads, every feature vector and every threshold, the call
    raises or returns NaN, the [np.float64] quotient by [len(y) = 0]. *)
Theorem information_gain_empty_labels (g : globals) (X : list Q) (th : Q) :
  raises (information_gain g X [] th) \/
  information_gain g X [] th = Ok (NpFloat NaN).
Proof.
  destruct (gain_partition_empty_labels X th) as [Hp | Hp].
  - destruct (entropy_cases g []) as [He | [He | [x He]]].
    + left. unfold information_gain. apply raises_bind. exact He.
    + left. unfold information_gain. rewrite He. cbn [bind].
      apply raises_bind. exact Hp.
    + left. unfold information_gain. rewrite He. cbn [bind].
      apply raises_bind. exact Hp.
  - destruct (entropy_cases g []) as [He | [He | [x He]]].
    + left. unfold information_gain. apply raises_bind. exact He.
    + left. rewrite (information_gain_formula g X [] th _ [] [] He Hp).
      apply raises_Raise.
    + right. rewrite (information_gain_formula g X [] th _ [] [] He Hp).
      cbn [length Z.of_nat py_mul py_add py_sub py_truediv float_like is_np
           orb to_f64 bind].
      rewrite zero_weighted_sum_div. unfold f64_sub. cbn [f64_neg].
      rewrite f64_add_NaN_r. reflexivity.
Qed.

(** An instance of each outcome. *)
Example information_gain_empty_zero_division :
  information_gain (("t", NpArray []) :: module_globals)%string [] [] 0 =
  Raise ZeroDivisionError.
Proof. reflexivity. Qed.

Example information_gain_empty_index_error :
  information_gain (("t", NpArray []) :: module_globals)%string [1] [] 0 =
  Raise IndexError.
Proof. reflexivity. Qed.

(** ** Masks, index arrays and selections *)

Lemma Qltb_lt (x y : Q) : Qltb x y = true <-> x < y.
Proof.
  unfold Qltb. rewrite negb_true_iff. split.
  - intros H. apply Qnot_le_lt. intros Hle.
    apply Qle_bool_iff in Hle. congruence.
  - intros H. destruct (Qle_bool y x) eqn:E; [|reflexivity].
    apply Qle_bool_iff in E. exfalso. exact (Qlt_not_le _ _ H E).
Qed.

Lemma nonzero_from_In (mask : list bool) (i r : nat) :
  In r (nonzero_from i mask) <->
  (i <= r)%nat /\ nth_error mask (r - i) = Some true.
Proof.
  revert i. induction mask as [|b mask IH]; intros i; cbn [nonzero_from].
  - split; [intros [] | intros [_ H]].
    destruct (r - i)%nat; discriminate H.
  - assert (Hrest : In r (nonzero_from (S i) mask) <->
                    (i < r)%nat /\ nth_error mask (r - S i) = Some true).
    { rewrite IH. reflexivity. }
    destruct b; cbn [In]; rewrite Hrest; split.
    + intros [<- | [Hlt H]].
      * rewrite Nat.sub_diag. split; [lia | reflexivity].
      * split; [lia|]. replace (r - i)%nat with (S (r - S i)) by lia. exact H.
    + intros [Hle H]. destruct (Nat.eq_dec i r) as [-> | Hne]; [left; reflexivity|].
      right. split; [lia|].
      replace (r - i)%nat with (S (r - S i)) in H by lia. exact H.
    + intros [Hlt H]. split; [lia|].
      replace (r - i)%nat with (S (r - S i)) by lia. exact H.
    + intros [Hle H]. destruct (Nat.eq_dec i r) as [-> | Hne].
      * rewrite Nat.sub_diag in H. discriminate H.
      * split; [lia|].
        replace (r - i)%nat with (S (r - S i)) in H by lia. exact H.
Qed.

Lemma nonzero_from_perm (mask : list bool) (i : nat) :
  Permutation (nonzero_from i mask ++ nonzero_from i (map negb mask))
              (seq i (length mask)).
Proof.
  revert i. induction mask as [|b mask IH]; intros i; cbn.
  - constructor.
  - destruct b; cbn.
    + constructor. apply IH.
    + apply Permutation_sym, Permutation_cons_app, Permutation_sym, IH.
Qed.

Lemma take_nonzero_from {A : Type} (mask : list bool) :
  forall (l pre : list A),
    length mask = length l ->
    take (pre ++ l) (nonzero_from (length pre) mask) = Ok (select l mask).
Proof.
  induction mask as [|b mask IH]; intros l pre Hlen.
  - destruct l; reflexivity.
  - destruct l as [|x l]; [discriminate Hlen|].
    injection Hlen as Hlen.
    assert (Hrest : take (pre ++ x :: l) (nonzero_from (S (length pre)) mask)
                    = Ok (select l mask)).
    { specialize (IH l (pre ++ [x]) Hlen).
      rewrite <- app_assoc in IH. cbn [app] in IH.
      rewrite length_app in IH. cbn [length] in IH.
      rewrite Nat.add_1_r in IH. exact IH. }
    cbn [nonzero_from select]. destruct b; [|exact Hrest].
    unfold take in *. cbn [comprehension].
    rewrite nth_error_app2 by lia. rewrite Nat.sub_diag. cbn [nth_error bind].
    rewrite Hrest. reflexivity.
Qed.

Lemma take_where {A : Type} (l : list A) (mask : list bool) :
  length mask = length l ->
  take l (nonzero_from 0 mask) = Ok (select l mask).
Proof. intros H. exact (take_nonzero_from mask l [] H). Qed.

Lemma select_perm {A : Type} (l : list A) :
  forall mask, length mask = length l ->
    Permutation (select l mask ++ select l (map negb mask)) l.
Proof.
  induction l as [|x l IH]; intros mask Hlen.
  - destruct mask; [constructor | discriminate Hlen].
  - destruct mask as [|b mask]; [discriminate Hlen|].
    injection Hlen as Hlen. cbn. destruct b; cbn.
    + constructor. apply IH, Hlen.
    + apply Permutation_sym, Permutation_cons_app, Permutation_sym, IH, Hlen.
Qed.

Lemma column_ok (X : matrix) (i : nat) :
  (i < ncols X)%nat ->
  column X i = Ok (map (fun row => nth i row 0) (rows X)).
Proof.
  intros H. unfold column.
  destruct (Nat.ltb_spec i (ncols X)); [reflexivity | lia].
Qed.

Lemma column_mask_In (X : matrix) (i r : nat) (f : Q -> bool) :
  nth_error (map f (map (fun row => nth i row 0) (rows X))) r = Some true <->
  (r < nrows X)%nat /\ f (entry X r i) = true.
Proof.
  unfold nrows, entry. rewrite map_map. split.
  - intros H. assert (Hr : (r < length (rows X))%nat).
    { rewrite <- (length_map (fun row => f (nth i row 0))).
      apply nth_error_Some. congruence. }
    split; [exact Hr|].
    rewrite (nth_error_nth' _ (f (nth i [] 0))) in H
      by (rewrite length_map; exact Hr).
    rewrite (map_nth (fun row => f (nth i row 0))) in H. congruence.
  - intros [Hr H].
    rewrite (nth_error_nth' _ (f (nth i [] 0))) by (rewrite length_map; exact Hr).
    rewrite (map_nth (fun row => f (nth i row 0))). congruence.
Qed.

(** ** split_test and the two boundary conventions *)

Lemma lt_mask_is_negated_ge_mask (c : list Q) (thresh : Q) :
  map (fun x => Qltb x thresh) c = map negb (map (fun x => Qle_bool thresh x) c).
Proof. rewrite map_map. reflexivity. Qed.

Lemma split_test_ok (X : matrix) (idx : nat) (thresh : Q) :
  (idx < ncols X)%nat ->
  let c := map (fun row => nth idx row 0) (rows X) in
  let ge := map (fun x => Qle_bool thresh x) c in
  split_test X idx thresh =
  Ok (Matrix (ncols X) (select (rows X) (map negb ge)), nonzero_from 0 (map negb ge),
      Matrix (ncols X) (select (rows X) ge), nonzero_from 0 ge).
Proof.
  intros Hidx c ge. unfold split_test.
  rewrite (column_ok X idx Hidx). fold c. cbn [bind np_where item nth_error].
  rewrite (lt_mask_is_negated_ge_mask c thresh). fold ge.
  assert (Hge : length ge = length (rows X)).
  { unfold ge, c. rewrite !length_map. reflexivity. }
  unfold take_rows.
  rewrite (take_where (rows X) (map negb ge)) by (rewrite length_map; exact Hge).
  rewrite (take_where (rows X) ge) by exact Hge.
  reflexivity.
Qed.

(** C10: for a feature index of the matrix, [split_test] returns; [idx0]
    holds exactly the rows whose feature value is below the threshold,
    [idx1] exactly those at or above it; no row index is in both, together
    they list every row index [0..N-1] once, and [X0], [X1] are the rows
    of [X] at [idx0] and [idx1], which together are the rows of [X]. *)
Theorem split_test_partition (X : matrix) (idx : nat) (thresh : Q) :
  (idx < ncols X)%nat ->
  exists X0 idx0 X1 idx1,
    split_test X idx thresh = Ok (X0, idx0, X1, idx1) /\
    (forall r, In r idx0 <-> (r < nrows X)%nat /\ entry X r idx < thresh) /\
    (forall r, In r idx1 <-> (r < nrows X)%nat /\ thresh <= entry X r idx) /\
    (forall r, ~ (In r idx0 /\ In r idx1)) /\
    Permutation (idx0 ++ idx1) (seq 0 (nrows X)) /\
    take_rows X idx0 = Ok X0 /\
    take_rows X idx1 = Ok X1 /\
    Permutation (rows X0 ++ rows X1) (rows X).
Proof.
  intros Hidx.
  pose (c := map (fun row => nth idx row 0) (rows X)).
  pose (ge := map (fun x => Qle_bool thresh x) c).
  assert (Hge : length ge = length (rows X)).
  { unfold ge, c. rewrite !length_map. reflexivity. }
  assert (H0 : forall r, In r (nonzero_from 0 (map negb ge)) <->
                         (r < nrows X)%nat /\ entry X r idx < thresh).
  { intros r. rewrite nonzero_from_In, Nat.sub_0_r.
    unfold ge. rewrite <- lt_mask_is_negated_ge_mask. unfold c.
    rewrite column_mask_In, Qltb_lt. split; [intros [_ H] | intros H; split];
      try exact H; lia. }
  assert (H1 : forall r, In r (nonzero_from 0 ge) <->
                         (r < nrows X)%nat /\ thresh <= entry X r idx).
  { intros r. rewrite nonzero_from_In, Nat.sub_0_r. unfold ge, c.
    rewrite column_mask_In, Qle_bool_iff. split; [intros [_ H] | intros H; split];
      try exact H; lia. }
  exists (Matrix (ncols X) (select (rows X) (map negb ge))),
         (nonzero_from 0 (map negb ge)),
         (Matrix (ncols X) (select (rows X) ge)),
         (nonzero_from 0 ge).
  split; [exact (split_test_ok X idx thresh Hidx)|].
  split; [exact H0|]. split; [exact H1|].
  split.
  { intros r [Ha Hb]. apply H0 in Ha. apply H1 in Hb.
    destruct Ha as [_ Ha]. destruct Hb as [_ Hb].
    exact (Qlt_not_le _ _ Ha Hb). }
  split.
  { unfold nrows. rewrite <- Hge.
    eapply Permutation_trans; [apply Permutation_app_comm|].
    apply nonzero_from_perm. }
  split.
  { unfold take_rows. rewrite take_where by (rewrite length_map; exact Hge).
    reflexivity. }
  split.
  { unfold take_rows. rewrite take_where by exact Hge. reflexivity. }
  cbn [rows]. eapply Permutation_trans; [apply Permutation_app_comm|].
  apply select_perm, Hge.
Qed.

Lemma split_test_partition_witness :
  exists X0 idx0 X1 idx1,
    split_test four_rows 0 2
    = Ok (X0, idx0, X1, idx1) /\
    (forall r, In r idx0 <->
       (r < nrows four_rows)%nat /\
       entry four_rows r 0 < 2) /\
    (forall r, In r idx1 <->
       (r < nrows four_rows)%nat /\
       2 <= entry four_rows r 0) /\
    (forall r, ~ (In r idx0 /\ In r idx1)) /\
    Permutation (idx0 ++ idx1)
      (seq 0 (nrows four_rows)) /\
    take_rows four_rows idx0 = Ok X0 /\
    take_rows four_rows idx1 = Ok X1 /\
    Permutation (rows X0 ++ rows X1)
      (rows four_rows).
Proof.
  apply (split_test_partition four_rows 0 2).
  cbn. lia.
Defined.

Example split_test_run :
  split_test (Matrix 2 [[1; 5]; [2; 7]; [3; 5]; [0; 9]]) 0 2 =
  Ok (Matrix 2 [[1; 5]; [0; 9]], [0; 3]%nat,
      Matrix 2 [[2; 7]; [3; 5]], [1; 2]%nat).
Proof. reflexivity. Qed.


(** C4: on the column [1, 2, 3] with labels [10, 20, 30] and threshold 2,
    the row whose feature value equals the threshold is put on the
    [X <= thresh] side by [information_gain]'s partition and on the
    [X >= thresh] side by [split_test] (and so by [split]); the two label
    partitions differ. *)
Theorem boundary_partitions_disagree :
  exists (X : matrix) (y : list Z) (thresh : Q) (r : nat) (c : list Q)
         (high low : list Z) (X0 X1 : matrix) (idx0 idx1 : list nat)
         (y0 y1 : list Z),
    column X 0 = Ok c /\
    nth_error c r = Some thresh /\
    gain_partition c y thresh = Ok (high, low) /\
    split_test X 0 thresh = Ok (X0, idx0, X1, idx1) /\
    split X y 0 thresh = Ok (X0, y0, X1, y1) /\
    NoDup y /\
    (exists l, nth_error y r = Some l /\
               In l low /\ ~ In l high /\ In l y1 /\ ~ In l y0) /\
    In r idx1 /\ ~ In r idx0 /\
    low <> y0 /\ high <> y1.
Proof.
  exists (Matrix 1 [[1]; [2]; [3]]), [10; 20; 30]%Z, 2, 1%nat, [1; 2; 3],
         [30]%Z, [10; 20]%Z, (Matrix 1 [[1]]), (Matrix 1 [[2]; [3]]),
         [0]%nat, [1; 2]%nat, [10]%Z, [20; 30]%Z.
  repeat split; try reflexivity; try discriminate.
  - repeat constructor; cbn; intuition discriminate.
  - exists 20%Z. repeat split; try reflexivity; cbn; intuition discriminate.
  - cbn. intuition.
  - cbn. intuition discriminate.
Qed.

(** ** Candidate thresholds *)

Lemma comprehension_Forall2 {A B : Type} (f : A -> result B) (xs : list A) :
  forall vs, comprehension f xs = Ok vs -> Forall2 (fun x v => f x = Ok v) xs vs.
Proof.
  induction xs as [|x xs IH]; intros vs H; cbn in H.
  - injection H as <-. constructor.
  - destruct (f x) as [v|e] eqn:Ex; [|discriminate H]. cbn [bind] in H.
    destruct (comprehension f xs) as [vs'|e]; [|discriminate H].
    injection H as <-. constructor; [exact Ex | apply IH; reflexivity].
Qed.

Lemma comprehension_raises {A B : Type} (f : A -> result B) (x : A) (xs : list A) :
  raises (f x) -> raises (comprehension f (x :: xs)).
Proof. intros H. cbn. apply raises_bind. exact H. Qed.


Lemma np_linspace_10_length (start stop : Q) :
  length (np_linspace start stop 10) = 10%nat.
Proof. reflexivity. Qed.


(** Every feature dimension gets ten thresholds. *)
Lemma fit_thresholds_shape (X : matrix) (th : list (list Q)) :
  fit_thresholds X = Ok th ->
  length th = ncols X /\ Forall (fun ts => length ts = 10%nat) th.
Proof.
  intros H. apply comprehension_Forall2 in H. split.
  - apply Forall2_length in H. rewrite length_seq in H. symmetry. exact H.
  - induction H as [|i ts is_ th' Hi _ IH]; constructor; [|exact IH].
    cbv beta in Hi.
    destruct (column X i) as [c|e]; cbn [bind] in Hi; [|discriminate Hi].
    destruct (np_min c) as [lo|e]; cbn [bind] in Hi; [|discriminate Hi].
    destruct (np_max c) as [hi|e]; cbn [bind] in Hi; [|discriminate Hi].
    injection Hi as <-. apply np_linspace_10_length.
Qed.

(** With no row, the first reduction [np.min] of line 85 raises. *)
Lemma fit_thresholds_no_rows (X : matrix) :
  nrows X = 0%nat -> (0 < ncols X)%nat -> fit_thresholds X = Raise ValueError.
Proof.
  intros Hrows Hcols. unfold fit_thresholds.
  destruct (ncols X) as [|d] eqn:Ed; [lia|].
  cbn [seq comprehension]. unfold column. rewrite Ed. cbn [Nat.ltb Nat.leb].
  unfold nrows in Hrows. apply length_zero_iff_nil in Hrows. rewrite Hrows.
  reflexivity.
Qed.










(** C6 (the code at the failing input): for the one-column matrix with
    the values 0 and [eps], ten thresholds are generated, from
    [min + eps = eps] down to [max - eps = 0], and the tenth is the column's
    minimum itself. *)
Theorem thresholds_reach_minimum :
  exists (ts : list Q) (lo : Q),
    fit_thresholds (Matrix 1 [[0]; [eps]]) = Ok [ts] /\
    np_min [0; eps] = Ok lo /\
    length ts = 10%nat /\
    nth 9 ts 1 == lo.
Proof.
  eexists. eexists. split; [vm_compute; reflexivity|].
  split; [vm_compute; reflexivity|].
  split; reflexivity.
Qed.

(** ** fit: the split search on malformed input *)

Lemma information_gain_mismatch (g : globals) (X : list Q) (y : list Z) (th : Q) :
  length X <> length y -> raises (information_gain g X y th).
Proof.
  intros Hlen. unfold information_gain.
  destruct (entropy g y) as [start|e]; [|apply raises_Raise].
  cbn [bind]. apply raises_bind. unfold gain_partition, mask_index.
  rewrite length_map.
  destruct (Nat.eqb_spec (length X) (length y)); [contradiction|].
  apply raises_Raise.
Qed.

Lemma for_each_raises_first {A S : Type} (body : S -> A -> result S)
  (x : A) (xs : list A) (s : S) :
  raises (body s x) -> raises (for_each body (x :: xs) s).
Proof. intros H. cbn. apply raises_bind. exact H. Qed.

(** The first call of the double loop of lines 88-90 is the gain of the
    first threshold of dimension 0; an exception there ends the loop. *)
Lemma fit_gains_first (g : globals) (X : matrix) (y : list Z)
  (th : list (list Q)) :
  (0 < ncols X)%nat ->
  length th = ncols X ->
  Forall (fun ts => length ts = 10%nat) th ->
  exists t,
    forall e,
      information_gain g (map (fun row => nth 0 row 0) (rows X)) y t = Raise e ->
      fit_gains g X y th = Raise e.
Proof.
  intros Hcols Hlen Hten.
  destruct th as [|ts th']; [cbn in Hlen; lia|].
  inversion Hten as [|? ? Hts _]; subst.
  destruct ts as [|t0 ts']; [discriminate Hts|].
  exists t0. intros e He. unfold fit_gains.
  destruct (ncols X) as [|d] eqn:Ed; [lia|].
  cbn [seq for_each item nth_error bind comprehension].
  rewrite (column_ok X 0) by lia. cbn [bind]. rewrite He. reflexivity.
Qed.

Lemma fit_gains_raises (g : globals) (X : matrix) (y : list Z)
  (th : list (list Q)) :
  (0 < ncols X)%nat ->
  length th = ncols X ->
  Forall (fun ts => length ts = 10%nat) th ->
  (forall c t, column X 0 = Ok c -> raises (information_gain g c y t)) ->
  raises (fit_gains g X y th).
Proof.
  intros Hcols Hlen Hten Hgain.
  destruct (fit_gains_first g X y th Hcols Hlen Hten) as [t Ht].
  destruct (Hgain _ t (column_ok X 0 Hcols)) as [e He].
  exists e. apply Ht, He.
Qed.

Lemma split_search_malformed (g : globals) (X : matrix) (y : list Z) :
  malformed X y -> raises (split_search g X y).
Proof.
  intros Hbad. unfold split_search.
  destruct (Nat.eq_dec (ncols X) 0) as [Hc0 | Hc].
  { (* no column: [np.argmax] of an empty array *)
    unfold fit_thresholds, fit_gains. rewrite Hc0. cbn. apply raises_Raise. }
  destruct (Nat.eq_dec (nrows X) 0) as [Hr0 | Hr].
  { (* no row: [np.min] of an empty column *)
    rewrite fit_thresholds_no_rows by lia. apply raises_Raise. }
  destruct Hbad as [Hlen | [H | H]]; try contradiction.
  (* length mismatch: the boolean index of line 47 *)
  destruct (fit_thresholds X) as [th|e] eqn:Eth; [|apply raises_Raise].
  cbn [bind]. apply raises_bind.
  destruct (fit_thresholds_shape X th Eth) as [Hl Hten].
  apply fit_gains_raises; [lia | exact Hl | exact Hten |].
  intros c t Hc0. apply information_gain_mismatch.
  rewrite column_ok in Hc0 by lia. injection Hc0 as <-.
  rewrite length_map. unfold nrows in Hlen. congruence.
Qed.

Lemma fit_positive_depth (g : globals) (self : DecisionTree) (X : matrix)
  (y : list Z) (e : exn) :
  (0 < max_depth self)%Z ->
  split_search g X y = Raise e ->
  fit g self X y = (self, Raise e).
Proof.
  intros Hd Hs. unfold fit. cbn [fit_fuel].
  destruct (Z.ltb_spec 0 (max_depth self)); [|lia].
  rewrite Hs. reflexivity.
Qed.

Lemma fit_leaf (g : globals) (self : DecisionTree) (X : matrix) (y : list Z) :
  (max_depth self <= 0)%Z -> fit g self X y = become_leaf g self X y.
Proof.
  intros Hd. unfold fit. cbn [fit_fuel].
  destruct (Z.ltb_spec 0 (max_depth self)); [lia | reflexivity].
Qed.

Lemma majority_unbound (g : globals) (y : list Z) :
  lookup g "stats" = None -> majority g y = Raise (NameError "stats").
Proof.
  intros H. unfold majority. rewrite (load_global_unbound g "stats" H).
  reflexivity.
Qed.

(** With a depth budget of 0 [fit] stores the data and the labels first
    (line 107); the lookup of [stats] on line 108 then fails. *)
Lemma fit_leaf_unbound_stats (g : globals) (self : DecisionTree) (X : matrix)
  (y : list Z) :
  (max_depth self <= 0)%Z ->
  lookup g "stats" = None ->
  fit g self X y = (set_data_labels self X y, Raise (NameError "stats")).
Proof.
  intros Hd Hg. rewrite fit_leaf by exact Hd. unfold become_leaf.
  rewrite (majority_unbound g y Hg). reflexivity.
Qed.

(** C8 (counterexample): with depth budget 0 and a label vector shorter
    than the matrix, the error reaches the caller after [data] (and
    [labels]) have been assigned. *)
Lemma fit_depth0_malformed_counterexample :
  malformed two_rows [0%Z] /\
  fit module_globals (DecisionTree_init 0 None) two_rows [0%Z] =
  (set_data_labels (DecisionTree_init 0 None) two_rows [0%Z],
   Raise (NameError "stats")) /\
  data (set_data_labels (DecisionTree_init 0 None) two_rows [0%Z]) <>
  data (DecisionTree_init 0 None).
Proof.
  split; [left; cbn; lia|]. split; [reflexivity | discriminate].
Qed.

(** C8 (amended): [fit] has no validation of its own.  With a depth budget
    above 0, a malformed input (length mismatch, no row or no column) makes
    the split search raise, whatever the names [fit] reads are bound to,
    and the error reaches the caller with the node as it was: none of
    [left], [right], [split_idx], [thresh], [data], [labels], [pred] has
    been assigned. *)
Theorem fit_malformed_positive_depth (g : globals) (self : DecisionTree)
  (X : matrix) (y : list Z) :
  (0 < max_depth self)%Z ->
  malformed X y ->
  exists e, fit g self X y = (self, Raise e).
Proof.
  intros Hd Hbad. destruct (split_search_malformed g X y Hbad) as [e He].
  exists e. apply fit_positive_depth; assumption.
Qed.

Lemma fit_malformed_positive_depth_witness :
  exists e,
    fit module_globals (DecisionTree_init 3 None) two_rows [0%Z] =
    (DecisionTree_init 3 None, Raise e).
Proof.
  apply (fit_malformed_positive_depth module_globals (DecisionTree_init 3 None)
           two_rows [0%Z]).
  - cbn. lia.
  - left. cbn. lia.
Defined.

(** The three kinds of malformed input at a positive depth budget, and a
    namespace in which [entropy] returns. *)
Example fit_no_rows :
  fit module_globals (DecisionTree_init 3 None) (Matrix 2 []) [] =
  (DecisionTree_init 3 None, Raise ValueError).
Proof. reflexivity. Qed.

Example fit_no_columns :
  fit module_globals (DecisionTree_init 3 None) (Matrix 0 [[]; []]) [0; 1]%Z =
  (DecisionTree_init 3 None, Raise ValueError).
Proof. reflexivity. Qed.

Example fit_length_mismatch :
  fit (("t", NpArray []) :: module_globals)%string (DecisionTree_init 3 None)
    two_rows [0%Z] =
  (DecisionTree_init 3 None, Raise IndexError).
Proof. reflexivity. Qed.

(** C1 (the code at every input of depth budget 0): the node stores the
    data and the labels and then [fit] raises [NameError] at the lookup of
    [stats]; [pred] is never assigned. *)
Theorem fit_depth0_raises (self : DecisionTree) (X : matrix) (y : list Z) :
  (max_depth self <= 0)%Z ->
  fit module_globals self X y =
  (set_data_labels self X y, Raise (NameError "stats")) /\
  pred (fst (fit module_globals self X y)) = pred self.
Proof.
  intros Hd.
  rewrite (fit_leaf_unbound_stats module_globals self X y Hd module_unbound_stats).
  split; reflexivity.
Qed.

Lemma fit_depth0_raises_witness :
  fit module_globals (DecisionTree_init 0 None) three_rows [0; 1; 1]%Z =
  (set_data_labels (DecisionTree_init 0 None) three_rows [0; 1; 1]%Z,
   Raise (NameError "stats")) /\
  pred (fst (fit module_globals (DecisionTree_init 0 None) three_rows
               [0; 1; 1]%Z)) = pred (DecisionTree_init 0 None).
Proof.
  apply (fit_depth0_raises (DecisionTree_init 0 None) three_rows [0; 1; 1]%Z).
  cbn. lia.
Defined.

Example fit_depth0_three_rows :
  fit module_globals (DecisionTree_init 0 None) three_rows [0; 1; 1]%Z =
  (Node 0 None None None None None (Some three_rows) (Some [0; 1; 1]%Z) None,
   Raise (NameError "stats")).
Proof. reflexivity. Qed.

(** ** np.unique and scipy.stats.mode *)

Lemma insert_unique_In (x y : Z) (l : list Z) :
  In y (insert_unique x l) <-> y = x \/ In y l.
Proof.
  induction l as [|h l IH]; cbn.
  - intuition.
  - destruct (Z.ltb_spec x h); [cbn; intuition|].
    destruct (Z.eqb_spec x h) as [-> | Hne]; cbn; [intuition|].
    rewrite IH. intuition.
Qed.

Lemma np_unique_In (y : Z) (a : list Z) : In y (np_unique a) <-> In y a.
Proof.
  unfold np_unique. induction a as [|x a IH]; cbn; [reflexivity|].
  rewrite insert_unique_In, IH. intuition.
Qed.

Lemma insert_unique_increasing (x : Z) (l : list Z) :
  increasing l -> increasing (insert_unique x l).
Proof.
  induction l as [|h l IH]; intros Hl; cbn.
  - split; [constructor | exact I].
  - destruct Hl as [Hh Hl].
    destruct (Z.ltb_spec x h) as [Hlt | Hge].
    + split; [|split; assumption]. constructor; [exact Hlt|].
      eapply Forall_impl; [|exact Hh]. intros z Hz. cbv beta in Hz. lia.
    + destruct (Z.eqb_spec x h) as [-> | Hne]; [split; assumption|].
      split; [|apply IH, Hl].
      apply Forall_forall. intros z Hz. apply insert_unique_In in Hz.
      destruct Hz as [-> | Hz]; [lia|].
      rewrite Forall_forall in Hh. apply Hh, Hz.
Qed.

Lemma np_unique_increasing (a : list Z) : increasing (np_unique a).
Proof.
  unfold np_unique. induction a as [|x a IH]; cbn; [exact I|].
  apply insert_unique_increasing, IH.
Qed.

Lemma scipy_mode_fold (a : list Z) :
  scipy_mode a = fold_left (mode_step a) (np_unique a) None.
Proof. reflexivity. Qed.

(** Scanning an increasing list keeps the first value of largest count. *)
Lemma mode_scan (a l : list Z) :
  forall b, Forall (Z.lt b) l -> increasing l ->
    exists m,
      fold_left (mode_step a) l (Some b) = Some m /\
      In m (b :: l) /\
      forall c, In c (b :: l) ->
        (count c a <= count m a)%nat /\ (count c a = count m a -> (m <= c)%Z).
Proof.
  induction l as [|v l IH]; intros b Hb Hl.
  - exists b. cbn. split; [reflexivity|]. split; [left; reflexivity|].
    intros c [<- | []]. split; [lia | intros _; lia].
  - destruct Hl as [Hv Hl].
    inversion Hb as [|? ? Hbv Hbl]; subst.
    cbn [fold_left mode_step].
    destruct (Nat.ltb_spec (count b a) (count v a)) as [Hlt | Hge].
    + destruct (IH v Hv Hl) as [m [Hm [Hin Hmax]]].
      exists m. split; [exact Hm|]. split; [right; exact Hin|].
      intros c [<- | Hc]; [|apply Hmax, Hc].
      destruct (Hmax v (or_introl eq_refl)) as [Hle _].
      split; [lia | intros Heq; lia].
    + destruct (IH b Hbl Hl) as [m [Hm [Hin Hmax]]].
      exists m. split; [exact Hm|].
      split; [destruct Hin as [<- | Hin]; [left; reflexivity | right; right; exact Hin]|].
      intros c [<- | [<- | Hc]].
      * apply Hmax. left. reflexivity.
      * destruct (Hmax b (or_introl eq_refl)) as [Hle Htie].
        split; [lia|]. intros Heq. assert (m <= b)%Z by (apply Htie; lia). lia.
      * apply Hmax. right. exact Hc.
Qed.

Lemma count_pos (x : Z) (a : list Z) : In x a <-> (0 < count x a)%nat.
Proof. unfold count. apply count_occ_In. Qed.

(** [scipy.stats.mode] of a non-empty array is its majority value, the
    lowest one on a tie. *)
Lemma scipy_mode_majority (a : list Z) :
  a <> [] -> exists m, scipy_mode a = Some m /\ is_majority m a.
Proof.
  intros Hne. rewrite scipy_mode_fold.
  pose proof (np_unique_increasing a) as Hinc.
  destruct (np_unique a) as [|b l] eqn:Eu.
  - destruct a as [|x a]; [contradiction|].
    assert (Hx : In x (np_unique (x :: a))) by (apply np_unique_In; left; reflexivity).
    rewrite Eu in Hx. destruct Hx.
  - destruct Hinc as [Hb Hl]. cbn [fold_left mode_step].
    destruct (mode_scan a l b Hb Hl) as [m [Hm [Hin Hmax]]].
    exists m. split; [exact Hm|].
    assert (Hma : In m a) by (apply np_unique_In; rewrite Eu; exact Hin).
    split; [exact Hma|]. intros c.
    destruct (in_dec Z.eq_dec c a) as [Hc | Hc].
    + apply Hmax. rewrite <- Eu. apply np_unique_In, Hc.
    + assert (H0 : count c a = 0%nat).
      { unfold count. apply count_occ_not_In, Hc. }
      apply count_pos in Hma. split; [lia | intros Heq; lia].
Qed.

Lemma scipy_mode_empty : scipy_mode [] = None.
Proof. reflexivity. Qed.

Example scipy_mode_tie : scipy_mode [3; 1; 3; 1; 2]%Z = Some 1%Z.
Proof. reflexivity. Qed.

(** With [stats] bound to [scipy.stats], a node of depth budget 0 becomes
    the leaf the specification describes: it stores the data and the labels, its
    prediction is the majority label, the lowest on a tie, and it has no
    child. *)
Lemma fit_leaf_with_scipy_stats (g : globals) (self : DecisionTree) (X : matrix)
  (y : list Z) :
  lookup g "stats" = Some ScipyStats ->
  (max_depth self <= 0)%Z ->
  y <> [] ->
  exists m,
    is_majority m y /\
    fit g self X y = (set_pred (set_data_labels self X y) (PyInt m), Ok tt) /\
    left_ (fst (fit g self X y)) = left_ self /\
    right_ (fst (fit g self X y)) = right_ self.
Proof.
  intros Hg Hd Hy. destruct (scipy_mode_majority y Hy) as [m [Hm Hmaj]].
  exists m. split; [exact Hmaj|].
  assert (Hfit : fit g self X y =
                 (set_pred (set_data_labels self X y) (PyInt m), Ok tt)).
  { rewrite fit_leaf by exact Hd. unfold become_leaf, majority, load_global.
    rewrite Hg. cbn [bind getattr_mode call_mode]. rewrite Hm. reflexivity. }
  rewrite Hfit. repeat split.
Qed.

(** ** Neutralized gains and the selection *)

Lemma nan_to_num1_finite (x : float64) : f64_is_finite (nan_to_num1 x) = true.
Proof. destruct x as [r|[|]|]; reflexivity. Qed.

Lemma neutralize_length (gains : list (list pynum)) :
  length (neutralize gains) = length gains.
Proof. unfold neutralize, np_nan_to_num. rewrite !length_map. reflexivity. Qed.




(** ** BaggedTrees.predict *)

Lemma update_nth_app {A : Type} (pre : list A) (x v : A) (post : list A) :
  update_nth (length pre) v (pre ++ x :: post) = pre ++ v :: post.
Proof. induction pre as [|p pre IH]; cbn; [reflexivity | rewrite IH; reflexivity]. Qed.

Lemma combine_map_same {A B C : Type} (f : A -> B) (h : A -> C) (l : list A) :
  combine (map f l) (map h l) = map (fun a => (f a, h a)) l.
Proof. induction l as [|a l IH]; cbn; [reflexivity | rewrite IH; reflexivity]. Qed.

Lemma predict_loop (n : nat) (rs : list (list Q)) :
  forall (rest done : list member),
    (length done + length rest = n)%nat ->
    for_each
      (fun predictions it =>
         let '(i, tree) := it in set_column n predictions i (map tree rs))
      (combine (seq (length done) (length rest)) rest)
      (map (votes done (length rest)) rs)
    = Ok (map (votes (done ++ rest) 0) rs).
Proof.
  induction rest as [|tree rest IH]; intros done Hlen.
  - cbn. rewrite app_nil_r. reflexivity.
  - cbn [length seq combine for_each]. unfold set_column.
    cbn [length] in Hlen.
    destruct (Nat.ltb_spec (length done) n); [|lia].
    rewrite !length_map, Nat.eqb_refl. cbn [bind].
    rewrite combine_map_same, map_map.
    specialize (IH (done ++ [tree])).
    rewrite length_app in IH. cbn [length] in IH. rewrite Nat.add_1_r in IH.
    rewrite <- app_assoc in IH. cbn [app] in IH.
    rewrite <- IH by lia. f_equal.
    apply map_ext. intros row. cbn [fst snd]. unfold votes.
    cbn [repeat]. rewrite <- (length_map (fun t => t row) done) at 1.
    rewrite update_nth_app, map_app, <- app_assoc. reflexivity.
Qed.

Lemma map_const_repeat {A B : Type} (v : B) (l : list A) :
  map (fun _ => v) l = repeat v (length l).
Proof. induction l as [|a l IH]; cbn; [reflexivity | rewrite IH; reflexivity]. Qed.

(** The loop of lines 142-143 fills row [r] with the members' labels. *)
Lemma predict_votes (g : globals) (self : BaggedTrees) (X : matrix) :
  BaggedTrees_wf self ->
  predict g self X =
  (mode <- load_global g "mode" ;;
   call_mode_rows mode
     (map (fun row => map (fun tree => tree row) (decision_trees self)) (rows X))).
Proof.
  intros Hwf. unfold predict, BaggedTrees_wf in *.
  pose proof (predict_loop (bt_n self) (rows X) (decision_trees self) []) as H.
  cbn [length app] in H. unfold votes at 1 in H. cbn [map app] in H.
  rewrite map_const_repeat in H. rewrite Hwf in H. rewrite Hwf. unfold nrows.
  rewrite H by reflexivity. cbn [bind].
  assert (Hv : map (votes (decision_trees self) 0) (rows X) =
               map (fun row => map (fun tree => tree row) (decision_trees self))
                 (rows X)).
  { apply map_ext. intros row. unfold votes. cbn [repeat]. apply app_nil_r. }
  rewrite Hv. reflexivity.
Qed.

Lemma predict_unbound_mode (g : globals) (self : BaggedTrees) (X : matrix) :
  BaggedTrees_wf self ->
  lookup g "mode" = None ->
  predict g self X = Raise (NameError "mode").
Proof.
  intros Hwf Hg. rewrite predict_votes by exact Hwf.
  rewrite (load_global_unbound g "mode" Hg). reflexivity.
Qed.

(** C9 (the code at every input): for an ensemble as [__init__] builds
    it, of [n] fitted members, and every matrix, [predict] collects the
    members' labels and then raises [NameError] at the lookup of [mode];
    no label is returned. *)
Theorem predict_module_raises (self : BaggedTrees) (X : matrix) :
  BaggedTrees_wf self ->
  predict module_globals self X = Raise (NameError "mode").
Proof.
  intros Hwf. apply predict_unbound_mode; [exact Hwf | exact module_unbound_mode].
Qed.

Lemma predict_module_raises_witness :
  predict module_globals (Bagged 3 [always 0%Z; stump; always 1%Z]) three_rows =
  Raise (NameError "mode").
Proof.
  apply (predict_module_raises (Bagged 3 [always 0%Z; stump; always 1%Z])
           three_rows).
  reflexivity.
Defined.



Example predict_with_scipy_mode_run :
  predict (("mode", ScipyMode) :: module_globals)%string
    (Bagged 3 [always 0%Z; stump; always 1%Z]) three_rows =
  Ok [PyInt 0; PyInt 1; PyInt 1].
Proof. reflexivity. Qed.

(** ** fit in the module as written *)

Lemma comprehension_ok {A B : Type} (f : A -> result B) (xs : list A) :
  (forall x, In x xs -> exists v, f x = Ok v) ->
  exists vs, comprehension f xs = Ok vs.
Proof.
  induction xs as [|x xs IH]; intros H.
  - exists []. reflexivity.
  - destruct (H x (or_introl eq_refl)) as [v Hv].
    destruct IH as [vs Hvs]; [intros x' Hx'; apply H; right; exact Hx'|].
    exists (v :: vs). cbn. rewrite Hv. cbn [bind]. rewrite Hvs. reflexivity.
Qed.

Lemma fit_thresholds_ok (X : matrix) :
  (0 < nrows X)%nat -> exists th, fit_thresholds X = Ok th.
Proof.
  intros Hrows. unfold fit_thresholds. apply comprehension_ok.
  intros i Hi. apply in_seq in Hi. rewrite column_ok by lia. cbn [bind].
  unfold nrows in Hrows. destruct (rows X) as [|r rs]; [cbn in Hrows; lia|].
  cbn [map np_min np_max bind]. eexists. reflexivity.
Qed.

(** With a depth budget above 0 and at least one row and one column, the
    first gain of the split search fails at the lookup of [t]; nothing has
    been assigned yet. *)
Lemma fit_positive_depth_unbound_t (g : globals) (self : DecisionTree)
  (X : matrix) (y : list Z) :
  lookup g "t" = None ->
  (0 < max_depth self)%Z ->
  (0 < nrows X)%nat ->
  (0 < ncols X)%nat ->
  fit g self X y = (self, Raise (NameError "t")).
Proof.
  intros Hg Hd Hrows Hcols. apply fit_positive_depth; [exact Hd|].
  unfold split_search.
  destruct (fit_thresholds_ok X Hrows) as [th Hth]. rewrite Hth. cbn [bind].
  destruct (fit_thresholds_shape X th Hth) as [Hl Hten].
  destruct (fit_gains_first g X y th Hcols Hl Hten) as [t Ht].
  rewrite (Ht (NameError "t")); [reflexivity|].
  apply information_gain_unbound, Hg.
Qed.

Example fit_depth1_separable :
  fit module_globals (DecisionTree_init 1 None)
    (Matrix 1 [[0]; [0]; [10]; [10]]) [0; 0; 1; 1]%Z =
  (DecisionTree_init 1 None, Raise (NameError "t")).
Proof. reflexivity. Qed.

(** ** entropy once [t] is bound *)

Lemma R_negative_false (r : R) : (0 <= r)%R -> R_negative r = false.
Proof.
  intros H. unfold R_negative. destruct (Rlt_dec r 0); [lra | reflexivity].
Qed.

Lemma log2_half : (ln (1 / 2) / ln 2 = -1)%R.
Proof.
  assert (H2 : (0 < ln 2)%R) by (pose proof ln_lt_2; lra).
  replace (1 / 2)%R with (/ 2)%R by lra.
  rewrite ln_Rinv by lra. field. lra.
Qed.

(** Even with [t] bound to the labels, line 39 counts the tuple of
    [np.where] and not the members of the class: the single-class labels
    [0, 0] get [-(1/2) log2 (1/2) = 1/2] where the entropy is 0. *)
Example entropy_single_class :
  exists r,
    entropy (("t", NpArray [0; 0]%Z) :: module_globals)%string [0; 0]%Z =
    Ok (NpFloat (Fin r)) /\ r = (1 / 2)%R.
Proof.
  exists (0 + - (1 / 2 * (ln (1 / 2) / ln 2)))%R. split.
  - unfold entropy.
    cbn [load_global lookup String.eqb Ascii.eqb Bool.eqb bind py_len length
         Nat.eqb as_array].
    cbn [np_unique fold_right insert_unique for_each bind map np_where length
         Z.of_nat Pos.of_succ_nat Pos.succ].
    unfold py_truediv.
    cbn [is_np orb pynum_is_zero Z.eqb to_f64 f64_of_Z f64_div].
    rewrite (R_zero_false 2) by lra. cbn [bind to_f64 np_log2].
    rewrite (R_zero_false (1 / 2)) by lra.
    rewrite (R_negative_false (1 / 2)) by lra.
    reflexivity.
  - rewrite log2_half. lra.
Qed.

(** ** The recursion of fit *)

(** The children get the budget [max_depth - 1], so the recursion is no
    deeper than the budget: any fuel above it gives the same result, and
    the fuel [fit] starts with is never used up. *)
Lemma fit_fuel_enough (g : globals) :
  forall (fuel fuel' : nat) (self : DecisionTree) (X : matrix) (y : list Z),
    (Z.to_nat (max_depth self) < fuel)%nat ->
    (Z.to_nat (max_depth self) < fuel')%nat ->
    fit_fuel fuel g self X y = fit_fuel fuel' g self X y.
Proof.
  induction fuel as [|fuel IH]; intros fuel' self X y H H'; [lia|].
  destruct fuel' as [|fuel']; [lia|].
  cbn [fit_fuel].
  destruct (Z.ltb_spec 0 (max_depth self)) as [Hd | Hd]; [|reflexivity].
  destruct (split_search g X y) as [[[th i] j]|e]; [|reflexivity].
  destruct (ts <- item th i ;; item ts j) as [t|e]; [|reflexivity].
  destruct (split X y i t) as [[[[X0 y0] X1] y1]|e]; [|reflexivity].
  destruct (Nat.ltb 0 (size X0) && Nat.ltb 0 (size X1)); [|reflexivity].
  cbn [max_depth set_thresh set_split_idx features].
  assert (Hchild : forall X' y',
            fit_fuel fuel g
              (DecisionTree_init (max_depth self - 1) (features self)) X' y' =
            fit_fuel fuel' g
              (DecisionTree_init (max_depth self - 1) (features self)) X' y').
  { intros X' y'. apply IH; cbn [max_depth DecisionTree_init]; lia. }
  rewrite (Hchild X0 y0).
  destruct (fit_fuel fuel' g
              (DecisionTree_init (max_depth self - 1) (features self)) X0 y0)
    as [l [u|e]]; [|reflexivity].
  unfold set_left. cbn [max_depth features].
  change (max_depth (set_thresh (set_split_idx self i) t)) with (max_depth self).
  change (features (set_thresh (set_split_idx self i) t)) with (features self).
  rewrite (Hchild X1 y1). reflexivity.
Qed.

Lemma fit_any_fuel (g : globals) (fuel : nat) (self : DecisionTree)
  (X : matrix) (y : list Z) :
  (Z.to_nat (max_depth self) < fuel)%nat ->
  fit_fuel fuel g self X y = fit g self X y.
Proof. intros H. unfold fit. apply fit_fuel_enough; lia. Qed.

(** ** The degenerate split *)

(** Lines 102-105: when the selected split leaves one side without an
    entry, the node gets the depth budget 0, stores the data and the
    labels and, with [stats] bound to [scipy.stats], predicts the majority
    label; [split_idx] and [thresh] keep the selected candidate and no
    child is created. *)
Lemma fit_degenerate_split (g : globals) (self : DecisionTree) (X : matrix)
  (y : list Z) (th : list (list Q)) (i j : nat) (ts : list Q) (t : Q)
  (X0 X1 : matrix) (y0 y1 : list Z) :
  lookup g "stats" = Some ScipyStats ->
  (0 < max_depth self)%Z ->
  split_search g X y = Ok (th, i, j) ->
  nth_error th i = Some ts ->
  nth_error ts j = Some t ->
  split X y i t = Ok (X0, y0, X1, y1) ->
  size X0 = 0%nat \/ size X1 = 0%nat ->
  y <> [] ->
  exists m,
    is_majority m y /\
    fit g self X y =
    (Node 0 (features self) (left_ self) (right_ self) (Some i) (Some t)
       (Some X) (Some y) (Some (PyInt m)), Ok tt).
Proof.
  intros Hg Hd Hs Hts Ht Hsplit Hempty Hy.
  destruct (scipy_mode_majority y Hy) as [m [Hm Hmaj]].
  exists m. split; [exact Hmaj|].
  unfold fit. cbn [fit_fuel].
  destruct (Z.ltb_spec 0 (max_depth self)); [|lia].
  rewrite Hs. unfold item. rewrite Hts. cbn [bind]. rewrite Ht, Hsplit.
  assert (Hif : Nat.ltb 0 (size X0) && Nat.ltb 0 (size X1) = false).
  { destruct Hempty as [-> | ->]; cbn; [reflexivity | apply andb_false_r]. }
  rewrite Hif. unfold become_leaf, majority, load_global.
  rewrite Hg. cbn [bind getattr_mode call_mode]. rewrite Hm. reflexivity.
Qed.

(** ** fit in a namespace that binds the missing names *)

Lemma comprehension_const {A B : Type} (f : A -> result B) (v : B) (xs : list A) :
  (forall x, f x = Ok v) -> comprehension f xs = Ok (map (fun _ => v) xs).
Proof.
  intros H. induction xs as [|x xs IH]; cbn; [reflexivity|].
  rewrite H. cbn [bind]. rewrite IH. reflexivity.
Qed.

Lemma entropy_t_empty (g : globals) (y : list Z) :
  lookup g "t" = Some (NpArray []) -> entropy g y = Ok (PyInt 0).
Proof. intros H. unfold entropy, load_global. rewrite H. reflexivity. Qed.

Lemma information_gain_t_empty (g : globals) (c : list Q) (y : list Z) (t : Q) :
  lookup g "t" = Some (NpArray []) ->
  length c = length y ->
  y <> [] ->
  information_gain g c y t =
  Ok (PyFloat (Fin (0 + - (0 / IZR (Z.of_nat (length y)))))).
Proof.
  intros Hg Hlen Hy. unfold information_gain.
  rewrite (entropy_t_empty g y Hg). cbn [bind].
  unfold gain_partition, mask_index. rewrite !length_map, Hlen, Nat.eqb_refl.
  cbn [bind]. rewrite !(entropy_t_empty g _ Hg). cbn [bind py_mul py_add].
  rewrite !Z.mul_0_r. cbn [Z.add]. unfold py_truediv.
  cbn [is_np orb pynum_is_zero].
  assert (Hn : Z.of_nat (length y) <> 0%Z).
  { destruct y; [contradiction | cbn; lia]. }
  destruct (Z.eqb_spec (Z.of_nat (length y)) 0); [contradiction|].
  cbn [bind to_f64 f64_of_Z f64_div].
  rewrite R_zero_false by (apply not_0_IZR; exact Hn).
  reflexivity.
Qed.

Lemma argmax_from_const (r : R) (l : list float64) :
  forall best_i i, Forall (eq (Fin r)) l -> argmax_from best_i (Fin r) i l = best_i.
Proof.
  induction l as [|x l IH]; intros best_i i H; [reflexivity|].
  inversion H as [|? ? Hx Hl]; subst. cbn [argmax_from f64_is_nan negb andb orb f64_gtb].
  destruct (Rlt_dec r r) as [Hlt|_]; [lra|]. apply IH, Hl.
Qed.

Example fit_separable :
  exists t,
    t == eps /\
    fit patched_globals (DecisionTree_init 1 None) separable [0; 0; 1; 1]%Z =
    (Node 1 None
       (Some (Node 0 None None None None None (Some (Matrix 1 [[0]; [0]]))
                (Some [0; 0]%Z) (Some (PyInt 0))))
       (Some (Node 0 None None None None None (Some (Matrix 1 [[10]; [10]]))
                (Some [1; 1]%Z) (Some (PyInt 1))))
       (Some 0%nat) (Some t) None None None, Ok tt).
Proof.
  assert (Hs : exists th ts, split_search patched_globals separable [0; 0; 1; 1]%Z = Ok (th, 0%nat, 0%nat)
             /\ fit_thresholds separable = Ok th /\ th = [ts]).
  { unfold split_search.
    destruct (fit_thresholds separable) as [th|e] eqn:Eth; [|discriminate Eth].
    vm_compute in Eth. injection Eth as <-.
    eexists. eexists. split; [|split; reflexivity].
    cbn [bind]. unfold fit_gains. cbn [ncols separable seq for_each item nth_error bind].
    rewrite (comprehension_const _ (PyFloat (Fin (0 + - (0 / IZR (Z.of_nat 4)))))).
    2:{ intros t. cbn [column separable ncols Nat.ltb Nat.leb rows map nth bind].
        apply information_gain_t_empty; [reflexivity | reflexivity | discriminate]. }
    cbn [bind app map]. unfold select_split, neutralize, np_nan_to_num.
    cbn [map to_f64 nan_to_num1 concat app np_argmax].
    rewrite argmax_from_const by (repeat constructor). reflexivity. }
  destruct Hs as [th [ts [Hs [Hth ->]]]].
  unfold fit. cbn [fit_fuel max_depth DecisionTree_init Z.to_nat Pos.to_nat Pos.iter_op Z.ltb Z.compare].
  vm_compute in Hth. injection Hth as <-.
  eexists. split; [|rewrite Hs; vm_compute; reflexivity]. reflexivity.
Qed.

(** * Further properties of the file *)

(** ** split_test and split *)

Lemma below_index_In (X : matrix) (idx : nat) (thresh : Q) (r : nat) :
  In r (nonzero_from 0
          (map negb (map (fun x => Qle_bool thresh x)
                       (map (fun row => nth idx row 0) (rows X))))) <->
  (r < nrows X)%nat /\ entry X r idx < thresh.
Proof.
  rewrite nonzero_from_In, Nat.sub_0_r.
  rewrite <- lt_mask_is_negated_ge_mask.
  rewrite column_mask_In, Qltb_lt.
  split; [intros [_ H] | intros H; split]; try exact H; lia.
Qed.

Lemma above_index_In (X : matrix) (idx : nat) (thresh : Q) (r : nat) :
  In r (nonzero_from 0
          (map (fun x => Qle_bool thresh x)
             (map (fun row => nth idx row 0) (rows X)))) <->
  (r < nrows X)%nat /\ thresh <= entry X r idx.
Proof.
  rewrite nonzero_from_In, Nat.sub_0_r.
  rewrite column_mask_In, Qle_bool_iff.
  split; [intros [_ H] | intros H; split]; try exact H; lia.
Qed.

Lemma nonzero_from_sorted (mask : list bool) :
  forall i, StronglySorted lt (nonzero_from i mask) /\
            Forall (le i) (nonzero_from i mask).
Proof.
  induction mask as [|b mask IH]; intros i; cbn [nonzero_from].
  - split; constructor.
  - destruct (IH (S i)) as [Hs Hle]. destruct b.
    + split.
      * constructor; [exact Hs|].
        eapply Forall_impl; [|exact Hle]. intros k Hk. cbv beta in Hk. lia.
      * constructor; [lia|].
        eapply Forall_impl; [|exact Hle]. intros k Hk. cbv beta in Hk. lia.
    + split; [exact Hs|].
      eapply Forall_impl; [|exact Hle]. intros k Hk. cbv beta in Hk. lia.
Qed.

Lemma select_all {A : Type} (l : list A) (mask : list bool) :
  length mask = length l -> Forall (eq true) mask -> select l mask = l.
Proof.
  revert mask. induction l as [|x l IH]; intros mask Hlen Hall.
  - reflexivity.
  - destruct mask as [|b mask]; [discriminate Hlen|].
    inversion Hall as [|? ? Hb Hm]; subst. cbn. f_equal.
    apply IH; [injection Hlen as Hlen; exact Hlen | exact Hm].
Qed.

Lemma select_none {A : Type} (l : list A) (mask : list bool) :
  Forall (eq false) mask -> select l mask = [].
Proof.
  revert mask. induction l as [|x l IH]; intros mask Hall.
  - reflexivity.
  - destruct mask as [|b mask]; [reflexivity|].
    inversion Hall as [|? ? Hb Hm]; subst. cbn. apply IH, Hm.
Qed.

Lemma nonzero_from_all (mask : list bool) (i : nat) :
  Forall (eq true) mask -> nonzero_from i mask = seq i (length mask).
Proof.
  revert i. induction mask as [|b mask IH]; intros i Hall; [reflexivity|].
  inversion Hall as [|? ? Hb Hm]; subst. cbn. f_equal. apply IH, Hm.
Qed.

Lemma nonzero_from_none (mask : list bool) (i : nat) :
  Forall (eq false) mask -> nonzero_from i mask = [].
Proof.
  revert i. induction mask as [|b mask IH]; intros i Hall; [reflexivity|].
  inversion Hall as [|? ? Hb Hm]; subst. cbn. apply IH, Hm.
Qed.

Lemma column_mask_Forall (X : matrix) (idx : nat) (f : Q -> bool) (b : bool) :
  (forall r, (r < nrows X)%nat -> f (entry X r idx) = b) ->
  Forall (eq b) (map f (map (fun row => nth idx row 0) (rows X))).
Proof.
  intros H. unfold nrows, entry in H. rewrite map_map.
  apply Forall_forall. intros v Hv. apply In_nth_error in Hv.
  destruct Hv as [r Hr].
  assert (Hlt : (r < length (rows X))%nat).
  { rewrite <- (length_map (fun row => f (nth idx row 0))).
    apply nth_error_Some. congruence. }
  rewrite (nth_error_nth' _ (f (nth idx [] 0))) in Hr
    by (rewrite length_map; exact Hlt).
  rewrite (map_nth (fun row => f (nth idx row 0))) in Hr.
  injection Hr as <-. symmetry. apply H, Hlt.
Qed.

(** X1: [split_test] keeps the rows in their order: the two index arrays
    are strictly increasing, so [X0] and [X1] list their rows in the order
    they have in [X]. *)
Theorem split_test_keeps_order (X : matrix) (idx : nat) (thresh : Q) :
  (idx < ncols X)%nat ->
  exists X0 idx0 X1 idx1,
    split_test X idx thresh = Ok (X0, idx0, X1, idx1) /\
    StronglySorted lt idx0 /\ StronglySorted lt idx1 /\
    rows X0 = map (fun r => nth r (rows X) []) idx0 /\
    rows X1 = map (fun r => nth r (rows X) []) idx1 /\
    ncols X0 = ncols X /\ ncols X1 = ncols X.
Proof.
  intros Hidx. rewrite (split_test_ok X idx thresh Hidx).
  do 4 eexists. split; [reflexivity|].
  split; [apply nonzero_from_sorted|]. split; [apply nonzero_from_sorted|].
  cbn [rows ncols].
  assert (Hsel : forall mask, length mask = length (rows X) ->
            select (rows X) mask =
            map (fun r => nth r (rows X) []) (nonzero_from 0 mask)).
  { intros mask Hlen. pose proof (take_where (rows X) mask Hlen) as Ht.
    apply comprehension_Forall2 in Ht.
    remember (nonzero_from 0 mask) as ix eqn:Eix. clear Eix.
    remember (select (rows X) mask) as sel eqn:Esel. clear Esel.
    induction Ht as [|r row ix' sel' Hr _ IH]; [reflexivity|].
    cbn [map]. rewrite <- IH. f_equal.
    destruct (nth_error (rows X) r) as [row'|] eqn:Er; [|discriminate Hr].
    injection Hr as <-. symmetry. apply nth_error_nth, Er. }
  repeat split; apply Hsel; rewrite !length_map; reflexivity.
Qed.

Lemma split_test_keeps_order_witness :
  exists X0 idx0 X1 idx1,
    split_test four_rows 0 2 = Ok (X0, idx0, X1, idx1) /\
    StronglySorted lt idx0 /\ StronglySorted lt idx1 /\
    rows X0 = map (fun r => nth r (rows four_rows) []) idx0 /\
    rows X1 = map (fun r => nth r (rows four_rows) []) idx1 /\
    ncols X0 = ncols four_rows /\ ncols X1 = ncols four_rows.
Proof. apply (split_test_keeps_order four_rows 0 2). cbn. lia. Defined.

Lemma split_test_all_high (X : matrix) (idx : nat) (thresh : Q) :
  (idx < ncols X)%nat ->
  (forall r, (r < nrows X)%nat -> thresh <= entry X r idx) ->
  split_test X idx thresh = Ok (Matrix (ncols X) [], [], X, seq 0 (nrows X)).
Proof.
  intros Hidx H. rewrite (split_test_ok X idx thresh Hidx).
  assert (Hlen : length (map (fun x => Qle_bool thresh x)
                          (map (fun row => nth idx row 0) (rows X)))
                 = length (rows X)) by (rewrite !length_map; reflexivity).
  assert (Hge : Forall (eq true)
                  (map (fun x => Qle_bool thresh x)
                     (map (fun row => nth idx row 0) (rows X)))).
  { apply column_mask_Forall. intros r Hr. apply Qle_bool_iff, H, Hr. }
  assert (Hlt : Forall (eq false)
                  (map negb (map (fun x => Qle_bool thresh x)
                               (map (fun row => nth idx row 0) (rows X))))).
  { apply Forall_forall. intros b Hb. apply in_map_iff in Hb.
    destruct Hb as [b' [<- Hb']]. rewrite Forall_forall in Hge.
    rewrite <- (Hge b' Hb'). reflexivity. }
  rewrite (select_none _ _ Hlt), (nonzero_from_none _ 0 Hlt).
  rewrite (select_all _ _ Hlen Hge), (nonzero_from_all _ 0 Hge), Hlen.
  destruct X. reflexivity.
Qed.

Lemma split_test_all_low (X : matrix) (idx : nat) (thresh : Q) :
  (idx < ncols X)%nat ->
  (forall r, (r < nrows X)%nat -> entry X r idx < thresh) ->
  split_test X idx thresh = Ok (X, seq 0 (nrows X), Matrix (ncols X) [], []).
Proof.
  intros Hidx H. rewrite (split_test_ok X idx thresh Hidx).
  assert (Hge : Forall (eq false)
                  (map (fun x => Qle_bool thresh x)
                     (map (fun row => nth idx row 0) (rows X)))).
  { apply column_mask_Forall. intros r Hr.
    destruct (Qle_bool thresh (entry X r idx)) eqn:E; [|reflexivity].
    apply Qle_bool_iff in E. exfalso. exact (Qlt_not_le _ _ (H r Hr) E). }
  assert (Hlt : Forall (eq true)
                  (map negb (map (fun x => Qle_bool thresh x)
                               (map (fun row => nth idx row 0) (rows X))))).
  { apply Forall_forall. intros b Hb. apply in_map_iff in Hb.
    destruct Hb as [b' [<- Hb']]. rewrite Forall_forall in Hge.
    rewrite <- (Hge b' Hb'). reflexivity. }
  assert (Hlen' : length (map negb (map (fun x => Qle_bool thresh x)
                           (map (fun row => nth idx row 0) (rows X))))
                  = length (rows X)) by (rewrite !length_map; reflexivity).
  rewrite (select_none _ _ Hge), (nonzero_from_none _ 0 Hge).
  rewrite (select_all _ _ Hlen' Hlt), (nonzero_from_all _ 0 Hlt), Hlen'.
  destruct X. reflexivity.
Qed.

(** X2: a threshold at or below every value of the feature leaves the low
    side without a row and puts the whole matrix, in order, on the high
    side; a threshold above every value does the opposite. *)
Theorem split_test_one_sided (X : matrix) (idx : nat) (thresh : Q) :
  (idx < ncols X)%nat ->
  ((forall r, (r < nrows X)%nat -> thresh <= entry X r idx) ->
   split_test X idx thresh =
   Ok (Matrix (ncols X) [], [], X, seq 0 (nrows X))) /\
  ((forall r, (r < nrows X)%nat -> entry X r idx < thresh) ->
   split_test X idx thresh =
   Ok (X, seq 0 (nrows X), Matrix (ncols X) [], [])).
Proof.
  intros Hidx. split; intros H.
  - apply split_test_all_high; assumption.
  - apply split_test_all_low; assumption.
Qed.

Lemma split_test_one_sided_witness :
  split_test four_rows 0 0 =
  Ok (Matrix (ncols four_rows) [], [], four_rows, seq 0 (nrows four_rows)) /\
  split_test four_rows 0 10 =
  Ok (four_rows, seq 0 (nrows four_rows), Matrix (ncols four_rows) [], []).
Proof.
  split.
  - refine (proj1 (split_test_one_sided four_rows 0 0 _) _); [cbn; lia|].
    intros r Hr. do 4 (destruct r as [|r]; [cbn; discriminate|]).
    cbn in Hr. lia.
  - refine (proj2 (split_test_one_sided four_rows 0 10 _) _); [cbn; lia|].
    intros r Hr. do 4 (destruct r as [|r]; [reflexivity|]).
    cbn in Hr. lia.
Defined.

Lemma select_combine {A B : Type} (a : list A) :
  forall (b : list B) (mask : list bool),
    select (combine a b) mask = combine (select a mask) (select b mask).
Proof.
  induction a as [|x a IH]; intros b mask.
  - reflexivity.
  - destruct b as [|y b].
    + cbn. destruct mask as [|m mask]; [reflexivity|].
      symmetry. apply combine_nil.
    + destruct mask as [|m mask]; [reflexivity|].
      cbn. destruct m; cbn; rewrite IH; reflexivity.
Qed.

Lemma select_map_In {A : Type} (f : A -> bool) (l : list A) (x : A) :
  In x (select l (map f l)) -> f x = true.
Proof.
  induction l as [|a l IH]; cbn; [intros []|].
  destruct (f a) eqn:E.
  - intros [<- | H]; [exact E | apply IH, H].
  - apply IH.
Qed.

Lemma select_length {A B : Type} (a : list A) :
  forall (b : list B) (mask : list bool),
    length a = length b -> length (select a mask) = length (select b mask).
Proof.
  induction a as [|x a IH]; intros b mask Hlen.
  - destruct b; [reflexivity | discriminate Hlen].
  - destruct b as [|y b]; [discriminate Hlen|]. injection Hlen as Hlen.
    destruct mask as [|m mask]; [reflexivity|].
    cbn. destruct m; cbn; rewrite (IH b mask Hlen); reflexivity.
Qed.

(** The low and high sides of [split], once the label array has one label
    per row. *)
Lemma split_ok (X : matrix) (y : list Z) (idx : nat) (thresh : Q) :
  (idx < ncols X)%nat ->
  length y = nrows X ->
  let ge := map (fun row => Qle_bool thresh (nth idx row 0)) (rows X) in
  split X y idx thresh =
  Ok (Matrix (ncols X) (select (rows X) (map negb ge)), select y (map negb ge),
      Matrix (ncols X) (select (rows X) ge), select y ge).
Proof.
  intros Hidx Hlen ge. unfold split.
  rewrite (split_test_ok X idx thresh Hidx). cbn [bind].
  replace (map (fun x => Qle_bool thresh x)
             (map (fun row => nth idx row 0) (rows X))) with ge
    by (unfold ge; rewrite map_map; reflexivity).
  assert (Hge : length ge = length y).
  { unfold ge. rewrite length_map. symmetry. exact Hlen. }
  rewrite (take_where y (map negb ge)) by (rewrite length_map; exact Hge).
  cbn [bind]. rewrite (take_where y ge) by exact Hge. reflexivity.
Qed.

(** X3: when [y] has one label per row, [split] returns, each side has as
    many labels as rows, every row keeps its own label, the two sides
    together are the labelled rows of the input, and the sides are
    separated by the threshold ([<] on the low side, [>=] on the high). *)
Theorem split_keeps_labels_aligned (X : matrix) (y : list Z) (idx : nat)
  (thresh : Q) :
  (idx < ncols X)%nat ->
  length y = nrows X ->
  exists X0 y0 X1 y1,
    split X y idx thresh = Ok (X0, y0, X1, y1) /\
    length y0 = nrows X0 /\ length y1 = nrows X1 /\
    Permutation (combine (rows X0) y0 ++ combine (rows X1) y1)
                (combine (rows X) y) /\
    (forall row l, In (row, l) (combine (rows X0) y0) -> nth idx row 0 < thresh) /\
    (forall row l, In (row, l) (combine (rows X1) y1) -> thresh <= nth idx row 0).
Proof.
  intros Hidx Hlen. rewrite (split_ok X y idx thresh Hidx Hlen).
  set (ge := map (fun row => Qle_bool thresh (nth idx row 0)) (rows X)).
  do 4 eexists. split; [reflexivity|]. unfold nrows. cbn [rows].
  split; [apply select_length; exact Hlen|].
  split; [apply select_length; exact Hlen|].
  split.
  - rewrite <- !select_combine.
    eapply Permutation_trans; [apply Permutation_app_comm|].
    apply select_perm. unfold ge. rewrite length_map.
    rewrite length_combine. unfold nrows in Hlen. lia.
  - split; intros row l Hin; apply in_combine_l in Hin.
    + unfold ge in Hin. rewrite map_map in Hin.
      apply select_map_In in Hin. apply Qltb_lt. unfold Qltb. exact Hin.
    + unfold ge in Hin. apply select_map_In in Hin.
      apply Qle_bool_iff. exact Hin.
Qed.

Lemma split_keeps_labels_aligned_witness :
  exists X0 y0 X1 y1,
    split four_rows [10; 20; 30; 40]%Z 0 2 = Ok (X0, y0, X1, y1) /\
    length y0 = nrows X0 /\ length y1 = nrows X1 /\
    Permutation (combine (rows X0) y0 ++ combine (rows X1) y1)
                (combine (rows four_rows) [10; 20; 30; 40]%Z) /\
    (forall row l, In (row, l) (combine (rows X0) y0) -> nth 0 row 0 < 2) /\
    (forall row l, In (row, l) (combine (rows X1) y1) -> 2 <= nth 0 row 0).
Proof.
  apply (split_keeps_labels_aligned four_rows [10; 20; 30; 40]%Z 0 2).
  - cbn. lia.
  - reflexivity.
Defined.

Lemma take_cases {A : Type} (a : list A) (idx : list nat) :
  (exists vs, take a idx = Ok vs /\
              Forall (fun i => (i < length a)%nat) idx) \/
  (take a idx = Raise IndexError /\
   Exists (fun i => (length a <= i)%nat) idx).
Proof.
  unfold take. induction idx as [|i idx IH]; cbn [comprehension].
  - left. exists []. split; [reflexivity | constructor].
  - destruct (nth_error a i) as [x|] eqn:Ei; cbn [bind].
    + assert (Hi : (i < length a)%nat) by (apply nth_error_Some; congruence).
      destruct IH as [[vs [-> Hall]] | [-> Hex]]; cbn [bind].
      * left. eexists. split; [reflexivity | constructor; assumption].
      * right. split; [reflexivity | apply Exists_cons_tl, Hex].
    + right. split; [reflexivity|]. apply Exists_cons_hd.
      apply nth_error_None, Ei.
Qed.

Lemma take_firstn {A : Type} (a : list A) (n : nat) (idx : list nat) :
  Forall (fun i => (i < n)%nat) idx -> take (firstn n a) idx = take a idx.
Proof.
  intros H. unfold take. induction H as [|i idx Hi _ IH]; cbn [comprehension].
  - reflexivity.
  - rewrite nth_error_firstn. destruct (Nat.ltb_spec i n); [|lia].
    rewrite IH. reflexivity.
Qed.

Lemma nonzero_from_bound (mask : list bool) (r : nat) :
  In r (nonzero_from 0 mask) -> (r < length mask)%nat.
Proof.
  intros H. apply nonzero_from_In in H. destruct H as [_ H].
  rewrite Nat.sub_0_r in H. apply nth_error_Some. congruence.
Qed.

(** X4: [split] does not compare the number of labels with the number of
    rows.  With fewer labels than rows it raises [IndexError]; with more,
    the labels past the last row are ignored and the call returns what it
    returns on the first [N] labels. *)
Theorem split_label_count (X : matrix) (y : list Z) (idx : nat) (thresh : Q) :
  (idx < ncols X)%nat ->
  ((length y < nrows X)%nat -> split X y idx thresh = Raise IndexError) /\
  ((nrows X <= length y)%nat ->
   split X y idx thresh = split X (firstn (nrows X) y) idx thresh).
Proof.
  intros Hidx. unfold split.
  rewrite (split_test_ok X idx thresh Hidx). cbn [bind].
  set (ge := map (fun x => Qle_bool thresh x)
               (map (fun row => nth idx row 0) (rows X))).
  assert (Hge : length ge = nrows X).
  { unfold ge, nrows. rewrite !length_map. reflexivity. }
  split; intros Hlen.
  - assert (Hlast : In (nrows X - 1)%nat (nonzero_from 0 (map negb ge)) \/
                    In (nrows X - 1)%nat (nonzero_from 0 ge)).
    { destruct (Qlt_le_dec (entry X (nrows X - 1) idx) thresh) as [Hlt | Hle].
      - left. apply below_index_In. split; [lia | exact Hlt].
      - right. apply above_index_In. split; [lia | exact Hle]. }
    destruct (take_cases y (nonzero_from 0 (map negb ge)))
      as [[y0 [E0 Hall0]] | [E0 _]]; rewrite E0; cbn [bind]; [|reflexivity].
    destruct (take_cases y (nonzero_from 0 ge))
      as [[y1 [E1 Hall1]] | [E1 _]]; rewrite E1; cbn [bind]; [|reflexivity].
    exfalso. rewrite Forall_forall in Hall0, Hall1.
    destruct Hlast as [H | H]; [apply Hall0 in H | apply Hall1 in H]; lia.
  - rewrite (take_firstn y (nrows X) (nonzero_from 0 (map negb ge))).
    + rewrite (take_firstn y (nrows X) (nonzero_from 0 ge)); [reflexivity|].
      apply Forall_forall. intros r Hr. apply nonzero_from_bound in Hr. lia.
    + apply Forall_forall. intros r Hr. apply nonzero_from_bound in Hr.
      rewrite length_map in Hr. lia.
Qed.

Lemma split_label_count_witness :
  split four_rows [10; 20]%Z 0 2 = Raise IndexError /\
  split four_rows [10; 20; 30; 40; 50; 60]%Z 0 2 =
  split four_rows (firstn (nrows four_rows) [10; 20; 30; 40; 50; 60]%Z) 0 2.
Proof.
  split.
  - refine (proj1 (split_label_count four_rows [10; 20]%Z 0 2 _) _); cbn; lia.
  - refine (proj2 (split_label_count four_rows [10; 20; 30; 40; 50; 60]%Z
                     0 2 _) _); cbn; lia.
Defined.

(** ** The threshold grid *)












(** ** information_gain and fit: errors *)



Lemma split_search_no_columns (g : globals) (X : matrix) (y : list Z) :
  ncols X = 0%nat -> split_search g X y = Raise ValueError.
Proof.
  intros H. unfold split_search, fit_thresholds, fit_gains. rewrite H.
  reflexivity.
Qed.

Lemma split_search_unbound_t (g : globals) (X : matrix) (y : list Z) :
  lookup g "t" = None ->
  (0 < nrows X)%nat -> (0 < ncols X)%nat ->
  split_search g X y = Raise (NameError "t").
Proof.
  intros Hg Hrows Hcols. unfold split_search.
  destruct (fit_thresholds_ok X Hrows) as [th Hth]. rewrite Hth. cbn [bind].
  destruct (fit_thresholds_shape X th Hth) as [Hl Hten].
  destruct (fit_gains_first g X y th Hcols Hl Hten) as [t Ht].
  rewrite (Ht (NameError "t")); [reflexivity|].
  apply information_gain_unbound, Hg.
Qed.

(** X9: in the module as written [fit] returns on no input.  With a depth
    budget of 0 or less it fails at the lookup of [stats]; with a positive
    budget it fails with [ValueError] when the matrix has no column or no
    row, and at the lookup of [t] otherwise.  In every case no child has
    been created and [pred] is as it was. *)
Theorem fit_module_never_returns (self : DecisionTree) (X : matrix)
  (y : list Z) :
  exists e,
    snd (fit module_globals self X y) = Raise e /\
    (e = NameError "stats" \/ e = NameError "t" \/ e = ValueError) /\
    left_ (fst (fit module_globals self X y)) = left_ self /\
    right_ (fst (fit module_globals self X y)) = right_ self /\
    pred (fst (fit module_globals self X y)) = pred self.
Proof.
  destruct (Z.ltb_spec 0 (max_depth self)) as [Hd | Hd].
  - assert (Hs : exists e, split_search module_globals X y = Raise e /\
                           (e = NameError "t" \/ e = ValueError)).
    { destruct (Nat.eq_dec (ncols X) 0) as [Hc | Hc].
      - exists ValueError.
        split; [apply split_search_no_columns, Hc | right; reflexivity].
      - destruct (Nat.eq_dec (nrows X) 0) as [Hr | Hr].
        + exists ValueError. split; [|right; reflexivity].
          unfold split_search. rewrite fit_thresholds_no_rows by lia.
          reflexivity.
        + exists (NameError "t"). split; [|left; reflexivity].
          apply split_search_unbound_t; [exact module_unbound_t | lia | lia]. }
    destruct Hs as [e [Hs He]].
    rewrite (fit_positive_depth module_globals self X y e Hd Hs).
    exists e. cbn [fst snd]. repeat split. tauto.
  - rewrite (fit_leaf_unbound_stats module_globals self X y Hd module_unbound_stats).
    exists (NameError "stats"). cbn [fst snd]. repeat split. left. reflexivity.
Qed.

(** ** The selection *)

Lemma argmax_from_first_maximum (l : list float64) :
  forall (pre : list float64) (best_i : nat),
    Forall (fun x => f64_is_finite x = true) (pre ++ l) ->
    first_maximum pre best_i ->
    first_maximum (pre ++ l)
      (argmax_from best_i (nth best_i pre (Fin 0)) (length pre) l).
Proof.
  induction l as [|x l IH]; intros pre best_i Hfin Hmax.
  - cbn [argmax_from]. rewrite app_nil_r. exact Hmax.
  - destruct Hmax as [Hk [Hle Hlt]].
    assert (Hx : f64_is_finite x = true).
    { rewrite Forall_forall in Hfin. apply Hfin, in_or_app. right. left.
      reflexivity. }
    assert (Hb : f64_is_finite (nth best_i pre (Fin 0)) = true).
    { rewrite Forall_forall in Hfin. apply Hfin, in_or_app. left.
      apply nth_In, Hk. }
    replace (pre ++ x :: l) with ((pre ++ [x]) ++ l) in *
      by (rewrite <- app_assoc; reflexivity).
    assert (Hlen : length (pre ++ [x]) = S (length pre))
      by (rewrite length_app; cbn; lia).
    cbn [argmax_from].
    destruct (nth best_i pre (Fin 0)) as [b| |] eqn:Eb; try discriminate Hb.
    destruct x as [r| |]; try discriminate Hx.
    cbn [f64_is_nan negb andb orb f64_gtb].
    destruct (Rlt_dec b r) as [Hgt | Hngt].
    + specialize (IH (pre ++ [Fin r]) (length pre) Hfin).
      rewrite Hlen in IH. rewrite nth_middle in IH. apply IH.
      split; [lia|]. rewrite nth_middle. cbn [gain_value]. split.
      * intros q Hq. rewrite Hlen in Hq.
        destruct (Nat.eq_dec q (length pre)) as [-> | Hne].
        -- rewrite nth_middle. cbn. lra.
        -- rewrite app_nth1 by lia. specialize (Hle q ltac:(lia)).
           cbn [gain_value] in Hle. lra.
      * intros q Hq. rewrite app_nth1 by lia. specialize (Hle q Hq).
        cbn [gain_value] in Hle. lra.
    + specialize (IH (pre ++ [Fin r]) best_i Hfin).
      rewrite Hlen in IH. rewrite app_nth1 in IH by exact Hk.
      rewrite Eb in IH. apply IH.
      split; [lia|]. rewrite app_nth1 by exact Hk. rewrite Eb.
      cbn [gain_value]. split.
      * intros q Hq. rewrite Hlen in Hq.
        destruct (Nat.eq_dec q (length pre)) as [-> | Hne].
        -- rewrite nth_middle. cbn. lra.
        -- rewrite app_nth1 by lia. specialize (Hle q ltac:(lia)).
           exact Hle.
      * intros q Hq. rewrite app_nth1 by lia. specialize (Hlt q Hq).
        exact Hlt.
Qed.

Lemma np_argmax_first_maximum (l : list float64) :
  l <> [] ->
  Forall (fun x => f64_is_finite x = true) l ->
  exists k, np_argmax l = Ok k /\ first_maximum l k.
Proof.
  intros Hne Hfin. destruct l as [|x l]; [contradiction|].
  eexists. split; [reflexivity|].
  apply (argmax_from_first_maximum l [x] 0 Hfin).
  split; [cbn; lia|]. split.
  - intros q Hq. cbn in Hq. destruct q; [cbn; lra | lia].
  - intros q Hq. lia.
Qed.

Lemma concat_uniform_length {A : Type} (n : nat) (rows : list (list A)) :
  Forall (fun row => length row = n) rows ->
  length (concat rows) = (length rows * n)%nat.
Proof.
  induction 1 as [|row rows Hrow _ IH]; cbn; [reflexivity|].
  rewrite length_app, IH, Hrow. reflexivity.
Qed.

Lemma nth_concat_uniform {A : Type} (n : nat) (d : A) (rows : list (list A)) :
  Forall (fun row => length row = n) rows ->
  forall r c, (c < n)%nat ->
    nth (r * n + c) (concat rows) d = nth c (nth r rows []) d.
Proof.
  induction 1 as [|row rows Hrow _ IH]; intros r c Hc.
  - cbn. destruct r, c; cbn; try reflexivity; destruct (_ + _)%nat; reflexivity.
  - destruct r as [|r]; cbn [concat nth].
    + cbn [Nat.mul Nat.add]. apply app_nth1. lia.
    + rewrite app_nth2 by (cbn; lia).
      replace (S r * n + c - length row)%nat with (r * n + c)%nat
        by (cbn; lia).
      apply IH, Hc.
Qed.

(** X10: for a grid of [D >= 1] rows of ten gains, [select_split] returns
    a position [(i, j)] inside the grid whose neutralized gain is largest;
    among equal gains it is the first in row-major order, that is the
    lowest dimension and, within it, the lowest threshold index. *)
Theorem select_split_first_maximum (gains : list (list pynum)) :
  gains <> [] ->
  Forall (fun row => length row = 10%nat) gains ->
  exists i j,
    select_split gains = Ok (i, j) /\
    (i < length gains)%nat /\ (j < 10)%nat /\
    (forall r c, (r < length gains)%nat -> (c < 10)%nat ->
       (neutral_at gains r c <= neutral_at gains i j)%R) /\
    (forall r c, (c < 10)%nat -> (r < i)%nat \/ (r = i /\ (c < j)%nat) ->
       (neutral_at gains r c < neutral_at gains i j)%R).
Proof.
  intros Hne Hten.
  assert (Hrows : Forall (fun row => length row = 10%nat) (neutralize gains)).
  { unfold neutralize, np_nan_to_num. rewrite Forall_forall in *.
    intros row Hrow. apply in_map_iff in Hrow. destruct Hrow as [row' [<- Hrow']].
    apply in_map_iff in Hrow'. destruct Hrow' as [row'' [<- Hrow'']].
    rewrite !length_map. apply Hten, Hrow''. }
  assert (Hfin : Forall (fun x => f64_is_finite x = true)
                   (concat (neutralize gains))).
  { apply Forall_forall. intros x Hx. apply in_concat in Hx.
    destruct Hx as [row [Hrow Hx]]. unfold neutralize, np_nan_to_num in Hrow.
    apply in_map_iff in Hrow. destruct Hrow as [row' [<- _]].
    apply in_map_iff in Hx. destruct Hx as [x' [<- _]].
    apply nan_to_num1_finite. }
  assert (Hlen : length (concat (neutralize gains)) = (length gains * 10)%nat).
  { rewrite (concat_uniform_length 10 _ Hrows), neutralize_length. reflexivity. }
  assert (Hne' : concat (neutralize gains) <> []).
  { intros E. rewrite E in Hlen. cbn in Hlen.
    destruct gains; [contradiction | cbn in Hlen; lia]. }
  destruct (np_argmax_first_maximum _ Hne' Hfin) as [k [Hk [Hkb [Hle Hlt]]]].
  rewrite Hlen in Hkb.
  exists (k / 10)%nat, (k mod 10)%nat.
  assert (Hkeq : k = (k / 10 * 10 + k mod 10)%nat).
  { pose proof (Nat.div_mod_eq k 10). lia. }
  assert (Hj : (k mod 10 < 10)%nat) by (apply Nat.mod_upper_bound; lia).
  assert (Hi : (k / 10 < length gains)%nat).
  { apply Nat.Div0.div_lt_upper_bound. lia. }
  split.
  { unfold select_split. rewrite Hk. cbn [bind].
    unfold np_unravel_index. rewrite neutralize_length.
    destruct (Nat.ltb_spec k (length gains * 10)); [reflexivity | lia]. }
  split; [exact Hi|]. split; [exact Hj|].
  assert (Hat : forall r c, (c < 10)%nat ->
            neutral_at gains r c =
            gain_value (nth (r * 10 + c) (concat (neutralize gains)) (Fin 0))).
  { intros r c Hc. unfold neutral_at.
    rewrite (nth_concat_uniform 10 (Fin 0) _ Hrows r c Hc). reflexivity. }
  split.
  - intros r c Hr Hc. rewrite (Hat r c Hc), (Hat _ _ Hj), <- Hkeq.
    apply Hle. rewrite Hlen. nia.
  - intros r c Hc Hearlier. rewrite (Hat r c Hc), (Hat _ _ Hj), <- Hkeq.
    apply Hlt. nia.
Qed.

Lemma select_split_first_maximum_witness :
  exists i j,
    select_split two_gain_rows = Ok (i, j) /\
    (i < length two_gain_rows)%nat /\ (j < 10)%nat /\
    (forall r c, (r < length two_gain_rows)%nat -> (c < 10)%nat ->
       (neutral_at two_gain_rows r c <= neutral_at two_gain_rows i j)%R) /\
    (forall r c, (c < 10)%nat -> (r < i)%nat \/ (r = i /\ (c < j)%nat) ->
       (neutral_at two_gain_rows r c < neutral_at two_gain_rows i j)%R).
Proof.
  apply (select_split_first_maximum two_gain_rows).
  - discriminate.
  - repeat constructor.
Defined.

(** ** The Gini functions *)

(** X11: the class defines no [gini], so [gini_impurity] fails at its
    first statement on every input, and [gini_purification], which only
    calls it, fails with it: [AttributeError] in the module as written,
    [NameError] in a namespace without [DecisionTree]. *)
Theorem gini_never_returns (g : globals) (X : list Q) (y : list Z) (thresh : Q) :
  (exists e,
     gini_impurity g X y thresh = Raise e /\
     gini_purification g X y thresh = Raise e /\
     (e = AttributeError "gini" \/ e = NameError "DecisionTree")) /\
  gini_impurity module_globals X y thresh = Raise (AttributeError "gini") /\
  gini_purification module_globals X y thresh = Raise (AttributeError "gini").
Proof.
  split; [|split; reflexivity].
  unfold gini_purification, gini_impurity, DecisionTree_call1.
  destruct (load_global g "DecisionTree") as [v|e] eqn:E.
  - exists (AttributeError "gini"). cbn. repeat split. left. reflexivity.
  - exists e. cbn. repeat split. right.
    unfold load_global in E. destruct (lookup g "DecisionTree"); [discriminate E|].
    injection E as <-. reflexivity.
Qed.

(** ** The constructors of the ensembles *)

Lemma dict_get_set_same {V : Type} (d : dict V) (k : string) (v : V) :
  dict_get (dict_set k v d) k = Some v.
Proof.
  induction d as [|[k' v'] d IH]; cbn.
  - rewrite String.eqb_refl. reflexivity.
  - destruct (String.eqb k' k) eqn:E; cbn; rewrite E; [reflexivity | exact IH].
Qed.

Lemma dict_get_set_other {V : Type} (d : dict V) (k k0 : string) (v : V) :
  k0 <> k -> dict_get (dict_set k v d) k0 = dict_get d k0.
Proof.
  intros Hne. induction d as [|[k' v'] d IH]; cbn.
  - destruct (String.eqb_spec k k0); [congruence | reflexivity].
  - destruct (String.eqb_spec k' k) as [-> | Hk]; cbn.
    + destruct (String.eqb_spec k k0); [congruence | reflexivity].
    + rewrite IH. reflexivity.
Qed.

Lemma dict_set_keys {V : Type} (d : dict V) (k : string) (v : V) (k0 : string) :
  In k0 (map fst (dict_set k v d)) <-> k0 = k \/ In k0 (map fst d).
Proof.
  induction d as [|[k' v'] d IH]; cbn.
  - intuition.
  - destruct (String.eqb_spec k' k) as [-> | Hk]; cbn.
    + intuition.
    + rewrite IH. intuition.
Qed.

Lemma range_nth (n : Z) (i : nat) :
  (i < Z.to_nat n)%nat -> nth_error (range n) i = Some (Z.of_nat i).
Proof.
  intros H. unfold range. rewrite nth_error_map.
  rewrite nth_error_seq. destruct (Nat.ltb_spec i (Z.to_nat n)); [|lia].
  reflexivity.
Qed.

Lemma comprehension_nth {A B : Type} (f : A -> result B) (xs : list A) :
  forall vs i x,
    comprehension f xs = Ok vs -> nth_error xs i = Some x ->
    exists v, nth_error vs i = Some v /\ f x = Ok v.
Proof.
  intros vs i x H. apply comprehension_Forall2 in H. revert i.
  induction H as [|a v xs' vs' Ha _ IH]; intros i Hi.
  - destruct i; discriminate Hi.
  - destruct i as [|i]; cbn in *.
    + injection Hi as ->. exists v. split; [reflexivity | exact Ha].
    + apply IH, Hi.
Qed.

(** X12: with parameters the classifier accepts and no [random_state]
    among them, [BaggedTrees.__init__] builds [n] members ([max(n, 0)]
    for any integer [n]), none of them fitted, member [i] with
    [random_state = i], all with the parameters as given. *)
Theorem BaggedTrees_init_members (accepts : string -> bool) (m : option Z)
  (params : dict Z) (n : Z) :
  dict_mem params "random_state" = false ->
  forallb (fun kv => accepts (fst kv)) params = true ->
  exists trees,
    BaggedTrees_init accepts m (Some params) n = Ok (Ens params n trees m) /\
    length trees = Z.to_nat n /\
    forall i, (i < Z.to_nat n)%nat ->
      nth_error trees i = Some (Clf (Z.of_nat i) params None).
Proof.
  intros Hrs Hacc. unfold BaggedTrees_init.
  assert (Hnew : forall i, DecisionTreeClassifier accepts i params =
                           Ok (Clf i params None)).
  { intros i. unfold DecisionTreeClassifier. rewrite Hrs, Hacc. reflexivity. }
  destruct (comprehension_ok (fun i => DecisionTreeClassifier accepts i params)
              (range n)) as [trees Htrees].
  { intros i _. eexists. apply Hnew. }
  rewrite Htrees. exists trees. split; [reflexivity|].
  pose proof (comprehension_Forall2 _ _ _ Htrees) as H2.
  split.
  - apply Forall2_length in H2. unfold range in H2.
    rewrite length_map, length_seq in H2. symmetry. exact H2.
  - intros i Hi.
    destruct (comprehension_nth _ _ _ i _ Htrees (range_nth n i Hi))
      as [v [Hv Hf]].
    rewrite Hnew in Hf. injection Hf as <-. exact Hv.
Qed.

Lemma BaggedTrees_init_members_witness :
  exists trees,
    BaggedTrees_init common_keywords None (Some script_params) 3 =
    Ok (Ens script_params 3 trees None) /\
    length trees = Z.to_nat 3 /\
    forall i, (i < Z.to_nat 3)%nat ->
      nth_error trees i = Some (Clf (Z.of_nat i) script_params None).
Proof.
  apply (BaggedTrees_init_members common_keywords None script_params 3);
    reflexivity.
Defined.

(** X13: with at least one member to build, [BaggedTrees.__init__] raises
    [TypeError] when the parameters hold [random_state] (the keyword is
    then given twice) or a keyword the classifier does not declare. *)
Theorem BaggedTrees_init_rejects (accepts : string -> bool) (m : option Z)
  (params : dict Z) (n : Z) :
  (0 < n)%Z ->
  dict_mem params "random_state" = true \/
  forallb (fun kv => accepts (fst kv)) params = false ->
  BaggedTrees_init accepts m (Some params) n = Raise TypeError.
Proof.
  intros Hn Hbad. unfold BaggedTrees_init, range.
  destruct (Z.to_nat n) as [|k] eqn:Ek; [lia|].
  cbn [seq map comprehension]. unfold DecisionTreeClassifier at 1.
  destruct Hbad as [-> | Hbad]; [reflexivity|].
  rewrite Hbad. destruct (dict_mem params "random_state"); reflexivity.
Qed.

Lemma BaggedTrees_init_rejects_witness :
  BaggedTrees_init common_keywords None
    (Some (("random_state", 6%Z) :: script_params)%string) 100 =
  Raise TypeError.
Proof.
  apply (BaggedTrees_init_rejects common_keywords None
           (("random_state", 6%Z) :: script_params)%string 100).
  - lia.
  - left. reflexivity.
Defined.

(** X14: [RandomForest.__init__] writes [max_features = m] into the dict
    it is given: afterwards the caller's dict holds [m] under
    [max_features], whatever it held before, and every other entry as
    before; the ensemble, when it is built, has that dict as [params], [m]
    as [m], and every member carries [max_features = m]. *)
Theorem RandomForest_init_max_features (accepts : string -> bool)
  (params : dict Z) (n m : Z) :
  exists params',
    fst (RandomForest_init accepts (Some params) n m) = Some params' /\
    dict_get params' "max_features" = Some m /\
    (forall k, k <> "max_features"%string ->
       dict_get params' k = dict_get params k) /\
    (forall self,
       snd (RandomForest_init accepts (Some params) n m) = Ok self ->
       ens_params self = params' /\ ens_m self = Some m /\ ens_n self = n /\
       Forall (fun tree => dict_get (tree_params tree) "max_features" = Some m)
         (ens_trees self)).
Proof.
  exists (dict_set "max_features" m params). cbn [fst snd RandomForest_init].
  split; [reflexivity|]. split; [apply dict_get_set_same|].
  split; [intros k Hk; apply dict_get_set_other; exact Hk|].
  intros self Hself. unfold BaggedTrees_init in Hself.
  destruct (comprehension _ (range n)) as [trees|e] eqn:Et;
    cbn [bind] in Hself; [|discriminate Hself].
  injection Hself as <-. cbn. repeat split.
  apply comprehension_Forall2 in Et.
  induction Et as [|i tree is_ trees' Hi _ IH]; constructor; [|exact IH].
  unfold DecisionTreeClassifier in Hi.
  destruct (dict_mem _ "random_state"); [discriminate Hi|].
  destruct (forallb _ _); [|discriminate Hi].
  injection Hi as <-. cbn. apply dict_get_set_same.
Qed.

Example RandomForest_init_run :
  RandomForest_init common_keywords
    (Some (("max_features", 7%Z) :: script_params)%string) 2 1 =
  (Some (("max_features", 1%Z) :: script_params)%string,
   Ok (Ens (("max_features", 1%Z) :: script_params)%string 2
         [Clf 0 (("max_features", 1%Z) :: script_params)%string None;
          Clf 1 (("max_features", 1%Z) :: script_params)%string None]
         (Some 1%Z))).
Proof. reflexivity. Qed.

(** ** BoostedRandomForest *)

(** X15: no constructor sets an attribute [trees] (the members are in
    [decision_trees]), so on every ensemble object and every input
    [BoostedRandomForest.fit] raises [AttributeError] with no member
    touched, and [BoostedRandomForest.predict] raises it as well. *)
Theorem BoostedRandomForest_never_runs
  (sk_fit : Classifier -> matrix -> list Z -> Classifier * result unit)
  (self : Ensemble) (X : matrix) (y : list Z) :
  BoostedRandomForest_fit sk_fit self X y =
  (self, Raise (AttributeError "trees")) /\
  BoostedRandomForest_predict self X = Raise (AttributeError "trees").
Proof. split; reflexivity. Qed.

(** ** BaggedTrees.fit *)






(** ** BaggedTrees.predict on an ensemble object *)









(** ** The tree fit builds *)






(** ** __repr__ *)

(** X19: [__repr__] takes a node for a leaf only when its [max_depth] is 0.
    A node fresh from [__init__] cannot be printed ([AttributeError] for
    the missing [labels] when the budget is 0, [TypeError] otherwise).
    After [fit], whatever its outcome, a node of budget 0 prints as its
    prediction and the number of its labels, and a node of negative
    budget, although [fit] treats it as a leaf, raises [TypeError]. *)
Theorem repr_of_shallow_nodes (str_float : float64 -> string)
  (str_thresh : Q -> string) (g : globals) (d : Z) (f : option (list string))
  (X : matrix) (y : list Z) :
  repr str_float str_thresh (DecisionTree_init d f) =
  Raise (if (d =? 0)%Z then AttributeError "labels" else TypeError) /\
  ((d < 0)%Z ->
   repr str_float str_thresh (fst (fit g (DecisionTree_init d f) X y)) =
   Raise TypeError) /\
  (d = 0%Z ->
   repr str_float str_thresh (fst (fit g (DecisionTree_init d f) X y)) =
   Ok (str_pred str_float (pred (fst (fit g (DecisionTree_init d f) X y)))
       ++ " (" ++ str_size (length y) ++ ")")%string).
Proof.
  split; [|split].
  - cbn. destruct (d =? 0)%Z; [reflexivity|]. destruct f; reflexivity.
  - intros Hd. rewrite fit_leaf by (cbn; lia). unfold become_leaf.
    destruct (majority g y); cbn; destruct (Z.eqb_spec d 0); try lia;
      destruct f; reflexivity.
  - intros ->. rewrite fit_leaf by (cbn; lia). unfold become_leaf.
    destruct (majority g y); reflexivity.
Qed.

Example repr_after_failed_fit :
  repr (fun _ => "nan"%string) (fun _ => "?"%string)
    (fst (fit module_globals (DecisionTree_init 0 None) three_rows [0; 1; 1]%Z))
  = Ok "None (3)"%string.
Proof. reflexivity. Qed.






(** ** What the missing imports hide *)





(** ** Features that cannot separate the rows *)






